(** * govbr-auth: the authentication service, embedded and verified

    A shallow embedding of [src/utils/index.ts], [src/config/index.ts],
    [src/errors] and [src/services/authService.ts].

    Conventions of the embedding.
    - A JavaScript string is modelled by the sequence of its UTF-8 bytes, a
      [string] of the standard library (one [ascii] per byte).  This is what
      [Buffer.from(str)], [hash.update(str)] and the serialiser of
      [URLSearchParams] see.  Strings with lone surrogates are outside the
      model.
    - [undefined] fields of an object are [None].
    - Arrays and caller-owned objects live in a store and are held by
      reference, since the service keeps the caller's [scopes] array.
    - Randomness, the store and the network are threaded through a small
      state-and-exception monad. *)

From Stdlib Require Import NArith ZArith Ascii String List Lia.
From stdpp Require Import base option gmap pretty.
Import ListNotations.

Local Open Scope list_scope.
Local Open Scope string_scope.

(** ** Strings *)

Definition byte_val (c : ascii) : N := N_of_ascii c.
Definition byte_of (n : N) : ascii := ascii_of_N n.

Fixpoint bytes_of_string (s : string) : list N :=
  match s with
  | EmptyString => []
  | String c r => byte_val c :: bytes_of_string r
  end.

Fixpoint string_of_bytes (l : list N) : string :=
  match l with
  | [] => EmptyString
  | b :: r => String (byte_of b) (string_of_bytes r)
  end.

(** [s.replace(/c/g, d)] for a one-character pattern [c]. *)
Fixpoint replace_all (c : ascii) (d : string) (s : string) : string :=
  match s with
  | EmptyString => EmptyString
  | String x r =>
      if Ascii.eqb x c then d ++ replace_all c d r
      else String x (replace_all c d r)
  end.

(** [Array.prototype.join]. *)
Fixpoint join (sep : string) (l : list string) : string :=
  match l with
  | [] => ""
  | [x] => x
  | x :: r => x ++ sep ++ join sep r
  end.

(** Membership of a character in a string. *)
Fixpoint occurs (c : ascii) (s : string) : bool :=
  match s with
  | EmptyString => false
  | String x r => Ascii.eqb x c || occurs c r
  end.

(** ** Buffer encodings of Node.js: hex, base64, base64url *)

Definition hex_digits : string := "0123456789abcdef".
Definition HEX_DIGITS : string := "0123456789ABCDEF".

Definition digit_of (alphabet : string) (i : N) : ascii :=
  match String.get (N.to_nat i) alphabet with
  | Some c => c
  | None => "?"%char
  end.

(** [buf.toString('hex')]: two lower-case digits per byte. *)
Fixpoint to_hex (s : string) : string :=
  match s with
  | EmptyString => EmptyString
  | String c r =>
      String (digit_of hex_digits (byte_val c / 16))
        (String (digit_of hex_digits (byte_val c mod 16)) (to_hex r))
  end.

Definition base64_alphabet : string :=
  "ABCDEFGHIJKLMNOPQRSTUVWXYZabcdefghijklmnopqrstuvwxyz0123456789+/".

Definition b64 (i : N) : ascii := digit_of base64_alphabet i.

(** [buf.toString('base64')]: three bytes give four sextets; a tail of one
    or two bytes is padded with [=]. *)
Fixpoint to_base64 (s : string) : string :=
  match s with
  | EmptyString => EmptyString
  | String a EmptyString =>
      let x := byte_val a in
      String (b64 (x / 4)) (String (b64 (x mod 4 * 16)) "==")
  | String a (String b EmptyString) =>
      let x := byte_val a in
      let y := byte_val b in
      String (b64 (x / 4))
        (String (b64 (x mod 4 * 16 + y / 16))
           (String (b64 (y mod 16 * 4)) "="))
  | String a (String b (String c r)) =>
      let x := byte_val a in
      let y := byte_val b in
      let z := byte_val c in
      String (b64 (x / 4))
        (String (b64 (x mod 4 * 16 + y / 16))
           (String (b64 (y mod 16 * 4 + z / 64))
              (String (b64 (z mod 64)) (to_base64 r))))
  end.

(** [buf.toString('base64url')]: the URL-safe alphabet, without padding. *)
Definition to_base64url (s : string) : string :=
  replace_all "="%char "" (replace_all "/"%char "_" (replace_all "+"%char "-" (to_base64 s))).

(** ** SHA-256 ([crypto.createHash('sha256')], FIPS 180-4)

    Words are 32-bit, modelled as [N] with the wrap-around written out. *)

Module Sha256.
Local Open Scope N_scope.

Definition modulus : N := 2 ^ 32.
Definition mask : N := modulus - 1.

Definition add (x y : N) : N := (x + y) mod modulus.
Definition rotr (n x : N) : N :=
  N.lor (N.shiftr x n) (N.shiftl x (32 - n) mod modulus).
Definition shr (n x : N) : N := N.shiftr x n.
Definition neg (x : N) : N := N.lxor x mask.

Definition Ch (x y z : N) : N := N.lxor (N.land x y) (N.land (neg x) z).
Definition Maj (x y z : N) : N :=
  N.lxor (N.lxor (N.land x y) (N.land x z)) (N.land y z).
Definition Sigma0 (x : N) : N := N.lxor (N.lxor (rotr 2 x) (rotr 13 x)) (rotr 22 x).
Definition Sigma1 (x : N) : N := N.lxor (N.lxor (rotr 6 x) (rotr 11 x)) (rotr 25 x).
Definition sigma0 (x : N) : N := N.lxor (N.lxor (rotr 7 x) (rotr 18 x)) (shr 3 x).
Definition sigma1 (x : N) : N := N.lxor (N.lxor (rotr 17 x) (rotr 19 x)) (shr 10 x).

Definition primes : list N :=
  [2; 3; 5; 7; 11; 13; 17; 19; 23; 29; 31; 37; 41; 43; 47; 53;
   59; 61; 67; 71; 73; 79; 83; 89; 97; 101; 103; 107; 109; 113; 127; 131;
   137; 139; 149; 151; 157; 163; 167; 173; 179; 181; 191; 193; 197; 199;
   211; 223; 227; 229; 233; 239; 241; 251; 257; 263; 269; 271; 277; 281;
   283; 293; 307; 311].

(** Integer cube root, one bit at a time from bit [b - 1] downwards. *)
Fixpoint cube_root (b : nat) (n r : N) : N :=
  match b with
  | O => r
  | S b' =>
      let r' := r + 2 ^ N.of_nat b' in
      cube_root b' n (if r' * r' * r' <=? n then r' else r)
  end.

(** The round constants: the first 32 bits of the fractional parts of the
    cube roots of the first 64 primes. *)
Definition K : list N :=
  Eval vm_compute in map (fun p => cube_root 40 (p * 2 ^ 96) 0 mod modulus) primes.

(** The initial hash value: the same for the square roots of the first 8
    primes. *)
Definition H0 : list N :=
  Eval vm_compute in map (fun p => N.sqrt (p * 2 ^ 64) mod modulus) (firstn 8 primes).

(** Message padding: a [1] bit, zeros up to 56 modulo 64 bytes, and the bit
    length on 8 bytes, big-endian. *)
Fixpoint be_bytes (k : nat) (n : N) : list N :=
  match k with
  | O => []
  | S k' => (n / 256 ^ N.of_nat k') mod 256 :: be_bytes k' n
  end.

Definition pad (msg : list N) : list N :=
  let len := N.of_nat (length msg) in
  let zeros := N.to_nat ((64 - (len + 9) mod 64) mod 64) in
  (msg ++ [128] ++ repeat 0 zeros ++ be_bytes 8 (8 * len))%list.

Fixpoint words (bs : list N) : list N :=
  match bs with
  | a :: b :: c :: d :: r => ((a * 256 + b) * 256 + c) * 256 + d :: words r
  | _ => []
  end.

(** The message schedule, most recent word first: from W(t-1) .. W(t-16)
    to W(63) .. W(0). *)
Fixpoint schedule (n : nat) (rw : list N) : list N :=
  match n with
  | O => rw
  | S n' =>
      let w := add (add (add (sigma1 (nth 1 rw 0)) (nth 6 rw 0))
                      (sigma0 (nth 14 rw 0))) (nth 15 rw 0) in
      schedule n' (w :: rw)
  end.

Definition round (st : list N) (kw : N * N) : list N :=
  match st with
  | [a; b; c; d; e; f; g; h] =>
      let t1 := add (add (add (add h (Sigma1 e)) (Ch e f g)) (fst kw)) (snd kw) in
      let t2 := add (Sigma0 a) (Maj a b c) in
      [add t1 t2; a; b; c; add d t1; e; f; g]
  | _ => st
  end.

Definition compress (h : list N) (block : list N) : list N :=
  let w := rev (schedule 48 (rev (words block))) in
  let st := fold_left round (combine K w) h in
  map (fun p => add (fst p) (snd p)) (combine h st).

Fixpoint blocks (n : nat) (bs : list N) (h : list N) : list N :=
  match n with
  | O => h
  | S n' => blocks n' (skipn 64 bs) (compress h (firstn 64 bs))
  end.

(** [createHash('sha256').update(msg).digest()]: the 32 bytes of the digest. *)
Definition digest (msg : string) : string :=
  let bs := pad (bytes_of_string msg) in
  string_of_bytes (flat_map (be_bytes 4) (blocks (length bs / 64) bs H0)).

End Sha256.

(** ** [URLSearchParams]: the application/x-www-form-urlencoded serialiser *)

(** Bytes left as they are: ASCII letters and digits, and [*], [-], [.], [_]. *)
Definition unreserved (c : ascii) : bool :=
  let n := byte_val c in
  ((48 <=? n) && (n <=? 57) || (65 <=? n) && (n <=? 90) || (97 <=? n) && (n <=? 122)
   || (n =? 42) || (n =? 45) || (n =? 46) || (n =? 95))%N.

Definition percent (c : ascii) : string :=
  String "%" (String (digit_of HEX_DIGITS (byte_val c / 16))
                (String (digit_of HEX_DIGITS (byte_val c mod 16)) "")).

Fixpoint form_encode (s : string) : string :=
  match s with
  | EmptyString => EmptyString
  | String c r =>
      if unreserved c then String c (form_encode r)
      else if Ascii.eqb c " " then String "+" (form_encode r)
      else percent c ++ form_encode r
  end.

(** The entries of a [URLSearchParams], in insertion order. *)
Abbreviation URLSearchParams := (list (string * string)).

Definition toString (q : URLSearchParams) : string :=
  join "&" (map (fun kv => form_encode (fst kv) ++ "=" ++ form_encode (snd kv)) q).

(** ** [src/types.ts] *)

Inductive Environment : Type := production | staging.

(** A reference to an array of strings in the store. *)
Definition loc : Type := nat.

(** [GovBRConfig] as a caller may pass it at run time: a field that is
    [undefined] or left out is [None]; [scopes] is a reference. *)
Record GovBRConfig : Type := {
  clientId : option string;
  clientSecret : option string;
  redirectUri : option string;
  environment : option Environment;
  scopes : option loc
}.

(** [Required<GovBRConfig>], the type of the service's own [config]. *)
Module Required.
Record GovBRConfig : Type := {
  clientId : string;
  clientSecret : string;
  redirectUri : string;
  environment : Environment;
  scopes : loc
}.
End Required.

Record AuthorizeParams : Type := {
  responseType : option string;
  nonce : option string;
  state : option string;
  codeChallenge : option string;
  codeChallengeMethod : option string
}.

(** The empty object, the default of [params]. *)
Definition no_params : AuthorizeParams :=
  {| responseType := None; nonce := None; state := None;
     codeChallenge := None; codeChallengeMethod := None |}.

(** Response bodies are passed through; any JSON value. *)
#[warnings="-register-all"]
Inductive Json : Type :=
  | JNull
  | JBool (b : bool)
  | JNum (n : Z)
  | JStr (s : string)
  | JArr (l : list Json)
  | JObj (fields : list (string * Json)).

(** ** [src/config/index.ts] *)

Record Endpoints : Type := {
  authorize : string;
  token : string;
  userinfo : string;
  logout : string;
  confiabilidades : string
}.

Definition ENDPOINTS (e : Environment) : Endpoints :=
  match e with
  | staging =>
      {| authorize := "https://sso.staging.acesso.gov.br/authorize";
         token := "https://sso.staging.acesso.gov.br/token";
         userinfo := "https://sso.staging.acesso.gov.br/userinfo";
         logout := "https://sso.staging.acesso.gov.br/logout";
         confiabilidades := "https://api.staging.acesso.gov.br/confiabilidades/v3" |}
  | production =>
      {| authorize := "https://sso.acesso.gov.br/authorize";
         token := "https://sso.acesso.gov.br/token";
         userinfo := "https://sso.acesso.gov.br/userinfo";
         logout := "https://sso.acesso.gov.br/logout";
         confiabilidades := "https://api.acesso.gov.br/confiabilidades/v3" |}
  end.

Definition DEFAULT_SCOPES : list string :=
  ["openid"; "email"; "profile"; "govbr_confiabilidades"].

(** ** Errors: [Error], axios's [AxiosError] and [src/errors] *)

Record HttpResponse : Type := {
  status : Z;
  data : Json
}.

#[warnings="-register-all"]
Inductive JsError : Type :=
  | Error (message : string)
  | TypeError (message : string)
  | AxiosError (message : string) (response : option HttpResponse)
  | GovBRAuthError (message code : string) (statusCode : option Z)
      (originalError : option JsError).

Definition message_of (e : JsError) : string :=
  match e with
  | Error m | TypeError m | AxiosError m _ | GovBRAuthError m _ _ _ => m
  end.

(** [axios.isAxiosError]. *)
Definition isAxiosError (e : JsError) : bool :=
  match e with
  | AxiosError _ _ => true
  | _ => false
  end.

(** [error.response?.status]. *)
Definition response_status (e : JsError) : option Z :=
  match e with
  | AxiosError _ (Some r) => Some (status r)
  | _ => None
  end.

(** ** The world the service runs in

    - [objects]: the configuration objects owned by callers;
    - [arrays]: the arrays of strings, by reference;
    - [entropy], [cursor]: the bytes [crypto.randomBytes] will deliver, and
      how many were consumed;
    - [remote]: the answer of the network to the latest request of a history;
    - [sent]: the requests issued so far. *)

Inductive Method : Type := GET | POST.

Record Request : Type := {
  method : Method;
  url : string;
  body : option URLSearchParams;
  params : URLSearchParams;
  headers : list (string * string);
  timeout : Z
}.

(** What the transport does with a request: an HTTP response of any status,
    or a failure (no response: [AxiosError] without [response]; or any other
    exception raised while the request is processed). *)
Inductive Reply : Type :=
  | Replied (r : HttpResponse)
  | Failed (e : JsError).

Record World : Type := {
  objects : gmap loc GovBRConfig;
  arrays : gmap loc (list string);
  entropy : nat -> ascii;
  cursor : nat;
  remote : list Request -> Reply;
  sent : list Request
}.

Definition set_arrays (a : gmap loc (list string)) (w : World) : World :=
  {| objects := objects w; arrays := a; entropy := entropy w;
     cursor := cursor w; remote := remote w; sent := sent w |}.

Definition set_objects (o : gmap loc GovBRConfig) (w : World) : World :=
  {| objects := o; arrays := arrays w; entropy := entropy w;
     cursor := cursor w; remote := remote w; sent := sent w |}.

Definition set_cursor (c : nat) (w : World) : World :=
  {| objects := objects w; arrays := arrays w; entropy := entropy w;
     cursor := c; remote := remote w; sent := sent w |}.

Definition set_sent (l : list Request) (w : World) : World :=
  {| objects := objects w; arrays := arrays w; entropy := entropy w;
     cursor := cursor w; remote := remote w; sent := l |}.

(** A computation returns a value or throws (an [async] function: fulfils
    or rejects). *)
Inductive Outcome (A : Type) : Type :=
  | Returned (a : A)
  | Threw (e : JsError).
Arguments Returned {A} a.
Arguments Threw {A} e.

Definition M (A : Type) : Type := World -> Outcome A * World.

Definition ret {A} (a : A) : M A := fun w => (Returned a, w).
Definition throw {A} (e : JsError) : M A := fun w => (Threw e, w).
Definition bind {A B} (m : M A) (k : A -> M B) : M B :=
  fun w =>
    match m w with
    | (Returned a, w') => k a w'
    | (Threw e, w') => (Threw e, w')
    end.

Notation "'let!' x ':=' m 'in' k" := (bind m (fun x => k))
  (at level 10, x name, m at level 100, k at level 200).

(** [a || b] on an optional string: [undefined] and [""] are falsy. *)
Definition truthy (o : option string) : option string :=
  match o with
  | Some s => if String.eqb s "" then None else Some s
  | None => None
  end.

Definition falsy (o : option string) : bool :=
  match truthy o with
  | Some _ => false
  | None => true
  end.

Definition or_else (o : option string) (d : string) : string :=
  match truthy o with
  | Some s => s
  | None => d
  end.

(** [a || f()]: [f] runs only when [a] is falsy. *)
Definition or_else_do (o : option string) (f : M string) : M string :=
  match truthy o with
  | Some s => ret s
  | None => f
  end.

(** ** [src/utils/index.ts] *)

(** [crypto.randomBytes(n)]. *)
Definition randomBytes (n : nat) : M string :=
  fun w =>
    (Returned (string_of_list_ascii (map (entropy w) (seq (cursor w) n))),
     set_cursor (cursor w + n) w).

Definition generateNonce : M string :=
  let! b := randomBytes 16 in ret (to_hex b).

Definition generateState : M string :=
  let! b := randomBytes 16 in ret (to_hex b).

Definition generateCodeVerifier : M string :=
  let! b := randomBytes 32 in ret (to_base64url b).

Definition generateCodeChallenge (verifier : string) : string :=
  replace_all "="%char ""
    (replace_all "/"%char "_"
       (replace_all "+"%char "-" (to_base64 (Sha256.digest verifier)))).

Definition base64URLEncode (str : string) : string :=
  replace_all "="%char ""
    (replace_all "/"%char "_"
       (replace_all "+"%char "-" (to_base64 str))).

(** ** The HTTP client (axios), as far as the service uses it *)

(** One [interceptors.response.use(onFulfilled, onRejected)] registration. *)
Record Interceptor : Type := {
  onFulfilled : HttpResponse -> Outcome HttpResponse;
  onRejected : JsError -> Outcome HttpResponse
}.

Record AxiosInstance : Type := {
  default_timeout : Z;
  default_headers : list (string * string);
  response_interceptors : list Interceptor
}.

(** [axios.create({timeout, headers})]. *)
Definition axios_create (t : Z) (hs : list (string * string)) : AxiosInstance :=
  {| default_timeout := t; default_headers := hs; response_interceptors := [] |}.

(** [client.interceptors.response.use(f, r)]. *)
Definition use (i : Interceptor) (c : AxiosInstance) : AxiosInstance :=
  {| default_timeout := default_timeout c;
     default_headers := default_headers c;
     response_interceptors := (response_interceptors c ++ [i])%list |}.

(** Headers of a call override the defaults of the instance. *)
Definition merge_headers (own defaults : list (string * string)) : list (string * string) :=
  (own ++ filter (fun d => negb (existsb (String.eqb (fst d)) (map fst own))) defaults)%list.

(** axios's default [validateStatus]. *)
Definition validateStatus (s : Z) : bool := ((200 <=? s) && (s <? 300))%Z.

(** axios's [settle]: a response outside 2xx rejects with an [AxiosError]
    that carries it. *)
Definition settle (r : Reply) : Outcome HttpResponse :=
  match r with
  | Replied resp =>
      if validateStatus (status resp) then Returned resp
      else Threw (AxiosError ("Request failed with status code " ++ pretty (status resp))
                    (Some resp))
  | Failed e => Threw e
  end.

(** The promise chain of the response interceptors. *)
Definition intercept (chain : list Interceptor) (o : Outcome HttpResponse) : Outcome HttpResponse :=
  fold_left
    (fun acc i =>
       match acc with
       | Returned r => onFulfilled i r
       | Threw e => onRejected i e
       end)
    chain o.

Definition request (c : AxiosInstance) (m : Method) (u : string)
    (b : option URLSearchParams) (q : URLSearchParams) (hs : list (string * string))
    : M HttpResponse :=
  fun w =>
    let req := {| method := m; url := u; body := b; params := q;
                  headers := merge_headers hs (default_headers c);
                  timeout := default_timeout c |} in
    let log := (sent w ++ [req])%list in
    (intercept (response_interceptors c) (settle (remote w log)), set_sent log w).

(** [client.post(url, data, {headers})] and [client.get(url, {params, headers})]. *)
Definition post (c : AxiosInstance) (u : string) (b : URLSearchParams)
    (hs : list (string * string)) : M HttpResponse :=
  request c POST u (Some b) [] hs.

Definition get (c : AxiosInstance) (u : string) (q : URLSearchParams)
    (hs : list (string * string)) : M HttpResponse :=
  request c GET u None q hs.

(** ** [src/services/authService.ts] *)

Record AuthService : Type := {
  config : Required.GovBRConfig;
  endpoints : Endpoints;
  client : AxiosInstance
}.

(** The store operations the constructor and the methods perform. *)
Definition read_object (p : loc) : M GovBRConfig :=
  fun w =>
    match objects w !! p with
    | Some c => (Returned c, w)
    | None => (Threw (TypeError "Cannot read properties of undefined"), w)
    end.

Definition new_array (l : list string) : M loc :=
  fun w =>
    let a := fresh (dom (arrays w)) in
    (Returned a, set_arrays (<[a := l]> (arrays w)) w).

Definition read_array (a : loc) : M (list string) :=
  fun w =>
    match arrays w !! a with
    | Some l => (Returned l, w)
    | None => (Threw (TypeError "Cannot read properties of undefined"), w)
    end.

(** The rejection handler registered by [setupAxiosInterceptors]. *)
Definition rethrow (error : JsError) : Outcome HttpResponse :=
  if isAxiosError error then
    Threw (GovBRAuthError (message_of error) "API_ERROR" (response_status error) (Some error))
  else Threw error.

Definition setupAxiosInterceptors (c : AxiosInstance) : AxiosInstance :=
  use {| onFulfilled := fun response => Returned response; onRejected := rethrow |} c.

(** [new AuthService(config)]; [cfg] is the reference to the caller's
    [config] object and [c] what it holds when the constructor runs. Past
    the guard the three required fields hold non-empty strings, which
    [or_else _ ""] reads; the spread copies them. *)
Definition new_AuthService (cfg : loc) : M AuthService :=
  let! c := read_object cfg in
  if falsy (clientId c) || falsy (clientSecret c) || falsy (redirectUri c) then
    throw (Error "Missing required configuration parameters")
  else
    let env := match environment c with Some e => e | None => production end in
    let! s := match scopes c with Some a => ret a | None => new_array DEFAULT_SCOPES end in
    ret {| config := {| Required.clientId := or_else (clientId c) "";
                        Required.clientSecret := or_else (clientSecret c) "";
                        Required.redirectUri := or_else (redirectUri c) "";
                        Required.environment := env;
                        Required.scopes := s |};
           endpoints := ENDPOINTS env;
           client := setupAxiosInterceptors
                       (axios_create 10000 [("Content-Type", "application/json")]) |}.

(** [challenge], [nonce_] and [state_] are the source's [codeChallenge] and
    the values of its [nonce] and [state] entries. *)
Definition generateAuthorizationUrl (this : AuthService) (params : AuthorizeParams) : M string :=
  let! codeVerifier := generateCodeVerifier in
  let challenge := generateCodeChallenge codeVerifier in
  let! scope := read_array (Required.scopes (config this)) in
  let! nonce_ := or_else_do (nonce params) generateNonce in
  let! state_ := or_else_do (state params) generateState in
  let queryParams : URLSearchParams :=
    [ ("response_type", or_else (responseType params) "code");
      ("client_id", Required.clientId (config this));
      ("scope", join " " scope);
      ("redirect_uri", Required.redirectUri (config this));
      ("nonce", nonce_);
      ("state", state_);
      ("code_challenge", or_else (codeChallenge params) challenge);
      ("code_challenge_method", or_else (codeChallengeMethod params) "S256") ] in
  ret (authorize (endpoints this) ++ "?" ++ toString queryParams).

Definition getTokens (this : AuthService) (code codeVerifier : string) : M Json :=
  let basicAuth :=
    base64URLEncode (Required.clientId (config this) ++ ":" ++ Required.clientSecret (config this)) in
  let! response :=
    post (client this) (token (endpoints this))
      [ ("grant_type", "authorization_code");
        ("code", code);
        ("redirect_uri", Required.redirectUri (config this));
        ("code_verifier", codeVerifier) ]
      [ ("Content-Type", "application/x-www-form-urlencoded");
        ("Authorization", "Basic " ++ basicAuth) ] in
  ret (data response).

Definition getUserInfo (this : AuthService) (accessToken : string) : M Json :=
  let! response :=
    get (client this) (userinfo (endpoints this)) []
      [ ("Authorization", "Bearer " ++ accessToken) ] in
  ret (data response).

Definition getConfiabilidadeNiveis (this : AuthService) (accessToken cpf : string) : M Json :=
  let! response :=
    get (client this) (confiabilidades (endpoints this) ++ "/contas/" ++ cpf ++ "/niveis")
      [ ("response-type", "ids") ]
      [ ("Authorization", "Bearer " ++ accessToken) ] in
  ret (data response).

Definition getConfiabilidadeSelos (this : AuthService) (accessToken cpf : string) : M Json :=
  let! response :=
    get (client this) (confiabilidades (endpoints this) ++ "/contas/" ++ cpf ++ "/confiabilidades")
      [ ("response-type", "ids") ]
      [ ("Authorization", "Bearer " ++ accessToken) ] in
  ret (data response).

Definition generateLogoutUrl (this : AuthService) (postLogoutRedirectUri : string) : string :=
  let queryParams : URLSearchParams :=
    [ ("post_logout_redirect_uri", postLogoutRedirectUri) ] in
  logout (endpoints this) ++ "?" ++ toString queryParams.

(** ** Vocabulary of the specification

    The decoders and observations in whose terms the properties are stated.
    They are not part of the program. *)

Fixpoint index_in (alphabet : string) (c : ascii) (i : N) : option N :=
  match alphabet with
  | EmptyString => None
  | String x r => if Ascii.eqb x c then Some i else index_in r c (i + 1)
  end.

Definition b64_index (c : ascii) : option N := index_in base64_alphabet c 0.

(** Standard base64 decoding of a padded text. *)
Fixpoint from_base64 (s : string) : option string :=
  match s with
  | EmptyString => Some EmptyString
  | String c1 (String c2 (String c3 (String c4 r))) =>
      match b64_index c1, b64_index c2 with
      | Some i1, Some i2 =>
          let b1 := byte_of (i1 * 4 + i2 / 16) in
          if Ascii.eqb c3 "=" then
            if Ascii.eqb c4 "=" && String.eqb r "" then Some (String b1 "") else None
          else
            match b64_index c3 with
            | Some i3 =>
                let b2 := byte_of (i2 mod 16 * 16 + i3 / 4) in
                if Ascii.eqb c4 "=" then
                  if String.eqb r "" then Some (String b1 (String b2 "")) else None
                else
                  match b64_index c4, from_base64 r with
                  | Some i4, Some t =>
                      Some (String b1 (String b2 (String (byte_of (i3 mod 4 * 64 + i4)) t)))
                  | _, _ => None
                  end
            | None => None
            end
      | _, _ => None
      end
  | _ => None
  end.

(** Restoring the [=] padding: up to a multiple of four characters. *)
Fixpoint restore_padding (s : string) : string :=
  match s with
  | String a (String b (String c (String d r))) =>
      String a (String b (String c (String d (restore_padding r))))
  | String a (String b (String c EmptyString)) => String a (String b (String c "="))
  | String a (String b EmptyString) => String a (String b "==")
  | String a EmptyString => String a "==="
  | EmptyString => EmptyString
  end.

(** Reversing the URL-safe mapping: [-] to [+], [_] to [/], padding back. *)
Definition reverse_url_safe (s : string) : string :=
  restore_padding (replace_all "_"%char "/" (replace_all "-"%char "+" s)).

(** Decoding of application/x-www-form-urlencoded text. *)
Definition hex_value (c : ascii) : option N := index_in HEX_DIGITS c 0.

Fixpoint form_decode (s : string) : string :=
  match s with
  | EmptyString => EmptyString
  | String c r =>
      if Ascii.eqb c "+" then String " " (form_decode r)
      else if Ascii.eqb c "%" then
        match r with
        | String h (String l r') =>
            match hex_value h, hex_value l with
            | Some x, Some y => String (byte_of (x * 16 + y)) (form_decode r')
            | _, _ => String c (form_decode r)
            end
        | _ => String c (form_decode r)
        end
      else String c (form_decode r)
  end.

(** [break_at c s]: the text before the first [c], and the text after it. *)
Fixpoint break_at (c : ascii) (s : string) : string * string :=
  match s with
  | EmptyString => (EmptyString, EmptyString)
  | String x r =>
      if Ascii.eqb x c then (EmptyString, r)
      else let p := break_at c r in (String x (fst p), snd p)
  end.

(** [split_on c s]: the pieces of [s] between the occurrences of [c]. *)
Fixpoint split_on (c : ascii) (s : string) : list string :=
  match s with
  | EmptyString => [EmptyString]
  | String x r =>
      if Ascii.eqb x c then EmptyString :: split_on c r
      else
        match split_on c r with
        | p :: ps => String x p :: ps
        | [] => [String x EmptyString]
        end
  end.

(** Parsing a query string into its entries. *)
Definition parse_query (s : string) : URLSearchParams :=
  if String.eqb s "" then []
  else map (fun piece => let p := break_at "=" piece in (form_decode (fst p), form_decode (snd p)))
         (split_on "&" s).

(** A required field that is absent or empty. *)
Definition missing (o : option string) : Prop := o = None \/ o = Some "".

(** A parameter the caller supplied with a non-empty value. *)
Definition supplied (o : option string) (s : string) : Prop := o = Some s /\ s <> "".

(** What a caller observes of a call: its outcome, the random bytes it
    consumed and the requests it issued. *)
Definition observe {A} (r : Outcome A * World) : Outcome A * nat * list Request :=
  (fst r, cursor (snd r), sent (snd r)).

(** Two worlds with the same randomness and the same network. *)
Definition same_ambient (w1 w2 : World) : Prop :=
  entropy w1 = entropy w2 /\ cursor w1 = cursor w2 /\
  remote w1 = remote w2 /\ sent w1 = sent w2.

(** The network operations of the service. *)
Inductive NetworkCall : Type :=
  | GetTokens (code codeVerifier : string)
  | GetUserInfo (accessToken : string)
  | GetConfiabilidadeNiveis (accessToken cpf : string)
  | GetConfiabilidadeSelos (accessToken cpf : string).

Definition perform (this : AuthService) (c : NetworkCall) : M Json :=
  match c with
  | GetTokens code v => getTokens this code v
  | GetUserInfo t => getUserInfo this t
  | GetConfiabilidadeNiveis t cpf => getConfiabilidadeNiveis this t cpf
  | GetConfiabilidadeSelos t cpf => getConfiabilidadeSelos this t cpf
  end.

(** The URL a network operation is expected to address. *)
Definition target (e : Endpoints) (c : NetworkCall) : string :=
  match c with
  | GetTokens _ _ => token e
  | GetUserInfo _ => userinfo e
  | GetConfiabilidadeNiveis _ cpf => confiabilidades e ++ "/contas/" ++ cpf ++ "/niveis"
  | GetConfiabilidadeSelos _ cpf => confiabilidades e ++ "/contas/" ++ cpf ++ "/confiabilidades"
  end.

(** The code verifier [generateCodeVerifier] draws in a world. *)
Definition verifier_drawn (w : World) : string :=
  to_base64url (string_of_list_ascii (map (entropy w) (seq (cursor w) 32))).

(** The nonce or state [generateNonce] draws at position [k]. *)
Definition hex_drawn (w : World) (k : nat) : string :=
  to_hex (string_of_list_ascii (map (entropy w) (seq k 16))).

(** ** Auxiliary definitions of the proofs, and sample worlds *)

(** The 64 indices of the base64 alphabet, and the facts checked on each:
    the index is found back, and neither mapping meets the padding. *)
Definition sextets : list N := map N.of_nat (seq 0 64).

(** The URL-safe mapping and its reversal, on one character. *)
Definition url_char (x : ascii) : ascii :=
  if Ascii.eqb x "+" then "-"%char else if Ascii.eqb x "/" then "_"%char else x.

Definition plain_char (y : ascii) : ascii :=
  if Ascii.eqb y "-" then "+"%char else if Ascii.eqb y "_" then "/"%char else y.

Definition sextet_ok (i : N) : bool :=
  match b64_index (b64 i) with
  | Some j => N.eqb i j
  | None => false
  end
  && negb (Ascii.eqb (b64 i) "=")
  && Ascii.eqb (plain_char (url_char (b64 i))) (b64 i)
  && negb (Ascii.eqb (url_char (b64 i)) "=").

(** The three replacements of [base64URLEncode], character by character. *)
Definition url_safe (s : string) : string :=
  replace_all "="%char "" (replace_all "/"%char "_" (replace_all "+"%char "-" s)).

(** The two replacements that reverse them. *)
Definition plain (s : string) : string :=
  replace_all "_"%char "/" (replace_all "-"%char "+" s).

(** The text of one entry of a query. *)
Definition entry_text (kv : string * string) : string :=
  form_encode (fst kv) ++ "=" ++ form_encode (snd kv).

(** The service [new AuthService] builds from the fields [c], its scopes
    array being [a]. *)
Definition built (c : GovBRConfig) (a : loc) : AuthService :=
  let env := match environment c with Some e => e | None => production end in
  {| config := {| Required.clientId := or_else (clientId c) "";
                  Required.clientSecret := or_else (clientSecret c) "";
                  Required.redirectUri := or_else (redirectUri c) "";
                  Required.environment := env;
                  Required.scopes := a |};
     endpoints := ENDPOINTS env;
     client := setupAxiosInterceptors
                 (axios_create 10000 [("Content-Type", "application/json")]) |}.

(** The request a network operation hands to the client. *)
Definition request_of (this : AuthService) (c : NetworkCall) : Request :=
  let own :=
    match c with
    | GetTokens _ _ =>
        [ ("Content-Type", "application/x-www-form-urlencoded");
          ("Authorization",
           "Basic " ++ base64URLEncode (Required.clientId (config this) ++ ":"
                                        ++ Required.clientSecret (config this))) ]
    | GetUserInfo t | GetConfiabilidadeNiveis t _ | GetConfiabilidadeSelos t _ =>
        [ ("Authorization", "Bearer " ++ t) ]
    end in
  {| method := match c with GetTokens _ _ => POST | _ => GET end;
     url := target (endpoints this) c;
     body := match c with
             | GetTokens code v =>
                 Some [ ("grant_type", "authorization_code"); ("code", code);
                        ("redirect_uri", Required.redirectUri (config this));
                        ("code_verifier", v) ]
             | _ => None
             end;
     params := match c with
               | GetConfiabilidadeNiveis _ _ | GetConfiabilidadeSelos _ _ =>
                   [ ("response-type", "ids") ]
               | _ => []
               end;
     headers := merge_headers own (default_headers (client this));
     timeout := default_timeout (client this) |}.

(** The value of a header, or of a query entry. *)
Definition entry (name : string) (l : list (string * string)) : option string :=
  match find (fun h => String.eqb (fst h) name) l with
  | Some h => Some (snd h)
  | None => None
  end.

(** [v] is the caller's value when one was supplied, and [d] otherwise. *)
Definition taken_from (o : option string) (d v : string) : Prop :=
  (forall x, supplied o x -> v = x) /\ ((forall x, ~ supplied o x) -> v = d).

(** The entries [generateAuthorizationUrl] puts in the query, given the
    scopes read, the nonce, the state and the derived challenge. *)
Definition query_of (this : AuthService) (p : AuthorizeParams) (scope : list string)
    (n s challenge : string) : URLSearchParams :=
  [ ("response_type", or_else (responseType p) "code");
    ("client_id", Required.clientId (config this));
    ("scope", join " " scope);
    ("redirect_uri", Required.redirectUri (config this));
    ("nonce", n);
    ("state", s);
    ("code_challenge", or_else (codeChallenge p) challenge);
    ("code_challenge_method", or_else (codeChallengeMethod p) "S256") ].

(** A caller whose configuration supplies its own scopes array. *)
Definition sample_config (a : option loc) (e : option Environment) : GovBRConfig :=
  {| clientId := Some "id"; clientSecret := Some "secret";
     redirectUri := Some "https://app.test/cb"; environment := e; scopes := a |}.

(** A world holding that object at [0] and one array, [l], at [1]. *)
Definition sample_world (c : GovBRConfig) (l : list string) (r : Reply) : World :=
  {| objects := {[ 0 := c ]}; arrays := {[ 1 := l ]};
     entropy := fun i => ascii_of_nat (7 * i + 3); cursor := 0;
     remote := fun _ => r; sent := [] |}.

(** A network that answers 200 to everything. *)
Definition ok_reply : Reply := Replied {| status := 200; data := JNull |}.

(** [scopes.push(x)] by whoever holds the array [a]. *)
Definition push (a : loc) (x : string) (w : World) : World :=
  match arrays w !! a with
  | Some l => set_arrays (<[a := (l ++ [x])%list]> (arrays w)) w
  | None => w
  end.

(** The world [before], where the caller's object passes the array at [1];
    and the world [after] the caller has reassigned every field of its
    object and pushed to an array of its own that is not the one it passed. *)
Definition reassigned : GovBRConfig :=
  {| clientId := Some "other"; clientSecret := None; redirectUri := Some "";
     environment := Some staging; scopes := Some 2 |}.

Definition before : World :=
  {| objects := {[ 0 := sample_config (Some 1) None ]};
     arrays := {[ 1 := ["openid"; "email"]; 2 := ["x"] ]};
     entropy := fun i => ascii_of_nat (7 * i + 3); cursor := 0;
     remote := fun _ => ok_reply; sent := [] |}.

Definition after : World :=
  set_objects (<[0 := reassigned]> (objects before)) (push 2 "y" before).

(** Parameters that supply at most a nonce and a state. *)
Definition sample_params (n s : option string) : AuthorizeParams :=
  {| responseType := None; nonce := n; state := s;
     codeChallenge := None; codeChallengeMethod := None |}.

(** The same world with other random bytes before the cursor. *)
Definition redrawn (w : World) : World :=
  {| objects := objects w; arrays := arrays w;
     entropy := fun i => if (i <? cursor w)%nat then "000"%char else entropy w i;
     cursor := cursor w; remote := remote w; sent := sent w |}.

(** The world [before] with a network that answers [r] to everything. *)
Definition failing_world (r : Reply) : World :=
  {| objects := objects before; arrays := arrays before;
     entropy := entropy before; cursor := 0;
     remote := fun _ => r; sent := [] |}.

(** ** Further vocabulary: alphabets, the hex decoder, more samples *)

(** Every character of [s] satisfies [p]. *)
Fixpoint all_chars (p : ascii -> bool) (s : string) : bool :=
  match s with
  | EmptyString => true
  | String c r => p c && all_chars p r
  end.

(** The digits [toString('hex')] writes. *)
Definition is_hex_digit (c : ascii) : bool := occurs c hex_digits.

(** The alphabet of base64url: letters, digits, [-] and [_]. *)
Definition is_base64url_char (c : ascii) : bool :=
  let n := byte_val c in
  ((48 <=? n) && (n <=? 57) || (65 <=? n) && (n <=? 90) || (97 <=? n) && (n <=? 122)
   || (n =? 45) || (n =? 95))%N.

(** The characters a serialised query is made of, besides [&] and [=]. *)
Definition is_query_char (c : ascii) : bool :=
  unreserved c || Ascii.eqb c "+" || Ascii.eqb c "%".

(** Decoding of a hex text, two digits per byte. *)
Fixpoint from_hex (s : string) : option string :=
  match s with
  | EmptyString => Some EmptyString
  | String h (String l r) =>
      match index_in hex_digits h 0, index_in hex_digits l 0, from_hex r with
      | Some x, Some y, Some t => Some (String (byte_of (x * 16 + y)) t)
      | _, _, _ => None
      end
  | _ => None
  end.

(** The bytes [randomBytes(n)] delivers at position [k]. *)
Definition bytes_drawn (w : World) (k n : nat) : string :=
  string_of_list_ascii (map (entropy w) (seq k n)).

(** The URL-safe mapping leaves a sextet in the base64url alphabet. *)
Definition sextet_url_ok (i : N) : bool := is_base64url_char (url_char (b64 i)).

(** Parameters that supply the code challenge of a verifier the caller keeps. *)
Definition with_challenge (verifier : string) : AuthorizeParams :=
  {| responseType := None; nonce := None; state := None;
     codeChallenge := Some (generateCodeChallenge verifier);
     codeChallengeMethod := None |}.

(** The same world with other random bytes where the verifier is drawn. *)
Definition rerolled (w : World) : World :=
  {| objects := objects w; arrays := arrays w;
     entropy := fun i => if (i <? cursor w + 32)%nat then "000"%char else entropy w i;
     cursor := cursor w; remote := remote w; sent := sent w |}.

(** The world after a first service was constructed in [w], without scopes. *)
Definition with_default_array (w : World) : World :=
  set_arrays (<[fresh (dom (arrays w)) := DEFAULT_SCOPES]> (arrays w)) w.

(** * Properties

    ** Bytes and base64 *)

Lemma byte_val_bound c : (byte_val c < 256)%N.
Proof. apply N_ascii_bounded. Qed.

Lemma byte_of_val c : byte_of (byte_val c) = c.
Proof. apply ascii_N_embedding. Qed.

Lemma byte_of_eq n c : n = byte_val c -> byte_of n = c.
Proof. intros ->. apply byte_of_val. Qed.

Lemma sextet_In i : (i < 64)%N -> In i sextets.
Proof.
  intros Hi. apply in_map_iff. exists (N.to_nat i). split; [lia|].
  apply in_seq. lia.
Qed.

Lemma sextets_ok : forallb sextet_ok sextets = true.
Proof. vm_compute. reflexivity. Qed.

Lemma sextet_spec i :
  (i < 64)%N ->
  b64_index (b64 i) = Some i /\ b64 i <> "="%char /\
  plain_char (url_char (b64 i)) = b64 i /\ url_char (b64 i) <> "="%char.
Proof.
  intros Hi. pose proof (proj1 (forallb_forall _ _) sextets_ok i (sextet_In i Hi)) as H.
  unfold sextet_ok in H.
  apply andb_true_iff in H as [H H4]. apply andb_true_iff in H as [H H3].
  apply andb_true_iff in H as [H1 H2].
  repeat split.
  - destruct (b64_index (b64 i)) as [j|]; [|discriminate].
    apply N.eqb_eq in H1. congruence.
  - intros E. rewrite E in H2. discriminate.
  - now apply Ascii.eqb_eq.
  - intros E. rewrite E in H4. discriminate.
Qed.

Ltac euclid := unfold byte_val in *; zify; Z.to_euclidean_division_equations; lia.

(** Induction three bytes at a time, the way [to_base64] recurses. *)
Lemma string_ind3 (P : string -> Prop) :
  P "" ->
  (forall a, P (String a "")) ->
  (forall a b, P (String a (String b ""))) ->
  (forall a b c r, P r -> P (String a (String b (String c r)))) ->
  forall s, P s.
Proof.
  intros H0 H1 H2 H3.
  fix IH 1. intros [|a [|b [|c r]]].
  - exact H0.
  - apply H1.
  - apply H2.
  - apply H3, IH.
Qed.

Lemma from_base64_step i1 i2 i3 i4 r t :
  (i1 < 64)%N -> (i2 < 64)%N -> (i3 < 64)%N -> (i4 < 64)%N ->
  from_base64 r = Some t ->
  from_base64 (String (b64 i1) (String (b64 i2) (String (b64 i3) (String (b64 i4) r)))) =
  Some (String (byte_of (i1 * 4 + i2 / 16))
          (String (byte_of (i2 mod 16 * 16 + i3 / 4))
             (String (byte_of (i3 mod 4 * 64 + i4)) t))).
Proof.
  intros H1 H2 H3 H4 Hr.
  destruct (sextet_spec i1 H1) as (E1 & _).
  destruct (sextet_spec i2 H2) as (E2 & _).
  destruct (sextet_spec i3 H3) as (E3 & N3 & _).
  destruct (sextet_spec i4 H4) as (E4 & N4 & _).
  cbn [from_base64]. rewrite E1, E2, E3, E4, Hr.
  apply Ascii.eqb_neq in N3, N4. now rewrite N3, N4.
Qed.

Lemma from_base64_two i1 i2 i3 :
  (i1 < 64)%N -> (i2 < 64)%N -> (i3 < 64)%N ->
  from_base64 (String (b64 i1) (String (b64 i2) (String (b64 i3) "="))) =
  Some (String (byte_of (i1 * 4 + i2 / 16))
          (String (byte_of (i2 mod 16 * 16 + i3 / 4)) "")).
Proof.
  intros H1 H2 H3.
  destruct (sextet_spec i1 H1) as (E1 & _).
  destruct (sextet_spec i2 H2) as (E2 & _).
  destruct (sextet_spec i3 H3) as (E3 & N3 & _).
  cbn [from_base64]. rewrite E1, E2, E3.
  apply Ascii.eqb_neq in N3. now rewrite N3.
Qed.

Lemma from_base64_one i1 i2 :
  (i1 < 64)%N -> (i2 < 64)%N ->
  from_base64 (String (b64 i1) (String (b64 i2) "==")) =
  Some (String (byte_of (i1 * 4 + i2 / 16)) "").
Proof.
  intros H1 H2.
  destruct (sextet_spec i1 H1) as (E1 & _).
  destruct (sextet_spec i2 H2) as (E2 & _).
  cbn [from_base64]. now rewrite E1, E2.
Qed.

(** Decoding undoes [buf.toString('base64')]. *)
Lemma from_base64_to_base64 s : from_base64 (to_base64 s) = Some s.
Proof.
  induction s as [|a|a b|a b c r IH] using string_ind3.
  - reflexivity.
  - pose proof (byte_val_bound a).
    cbn [to_base64]. rewrite from_base64_one by euclid.
    do 2 f_equal. apply byte_of_eq. euclid.
  - pose proof (byte_val_bound a). pose proof (byte_val_bound b).
    cbn [to_base64]. rewrite from_base64_two by euclid.
    repeat f_equal; apply byte_of_eq; euclid.
  - pose proof (byte_val_bound a). pose proof (byte_val_bound b).
    pose proof (byte_val_bound c).
    cbn [to_base64]. rewrite (from_base64_step _ _ _ _ _ r) by (assumption || euclid).
    repeat f_equal; apply byte_of_eq; euclid.
Qed.

Lemma url_safe_cons x r :
  url_char x <> "="%char -> url_safe (String x r) = String (url_char x) (url_safe r).
Proof.
  unfold url_safe, url_char. cbn [replace_all].
  destruct (Ascii.eqb_spec x "+") as [->|Hp]; [reflexivity|].
  cbn [replace_all].
  destruct (Ascii.eqb_spec x "/") as [->|Hs]; [reflexivity|].
  cbn [replace_all]. intros Hne. apply Ascii.eqb_neq in Hne. now rewrite Hne.
Qed.

Lemma url_safe_pad r : url_safe (String "=" r) = url_safe r.
Proof. reflexivity. Qed.

Lemma plain_cons y r : plain (String y r) = String (plain_char y) (plain r).
Proof.
  unfold plain, plain_char. cbn [replace_all].
  destruct (Ascii.eqb_spec y "-") as [->|Hm]; [reflexivity|].
  cbn [replace_all].
  destruct (Ascii.eqb_spec y "_") as [->|Hu]; reflexivity.
Qed.

Lemma plain_url_safe_sextet i r :
  (i < 64)%N -> plain (url_safe (String (b64 i) r)) = String (b64 i) (plain (url_safe r)).
Proof.
  intros Hi. destruct (sextet_spec i Hi) as (_ & _ & Hback & Hne).
  rewrite url_safe_cons by assumption. rewrite plain_cons. now rewrite Hback.
Qed.

(** Reversing the URL-safe mapping gives the padded base64 text back. *)
Lemma reverse_url_safe_base64 s : reverse_url_safe (url_safe (to_base64 s)) = to_base64 s.
Proof.
  unfold reverse_url_safe. fold (plain (url_safe (to_base64 s))).
  induction s as [|a|a b|a b c r IH] using string_ind3.
  - reflexivity.
  - pose proof (byte_val_bound a). cbn [to_base64].
    rewrite !plain_url_safe_sextet by euclid. reflexivity.
  - pose proof (byte_val_bound a). pose proof (byte_val_bound b). cbn [to_base64].
    rewrite !plain_url_safe_sextet by euclid. reflexivity.
  - pose proof (byte_val_bound a). pose proof (byte_val_bound b).
    pose proof (byte_val_bound c). cbn [to_base64].
    rewrite !plain_url_safe_sextet by euclid.
    cbn [restore_padding]. now rewrite IH.
Qed.

Lemma base64URLEncode_decodes str :
  from_base64 (reverse_url_safe (base64URLEncode str)) = Some str.
Proof.
  unfold base64URLEncode. fold (url_safe (to_base64 str)).
  rewrite reverse_url_safe_base64. apply from_base64_to_base64.
Qed.

Lemma occurs_app c a b : occurs c (a ++ b) = occurs c a || occurs c b.
Proof.
  induction a as [|x a IH]; [reflexivity|].
  simpl. rewrite IH. apply orb_assoc.
Qed.

(** No replaced or stripped character survives. *)
Lemma occurs_replace_all c d s :
  occurs c d = false -> occurs c (replace_all c d s) = false.
Proof.
  intros Hd. induction s as [|x r IH]; [reflexivity|].
  cbn [replace_all]. destruct (Ascii.eqb_spec x c) as [->|Hx].
  - now rewrite occurs_app, Hd, IH.
  - cbn [occurs]. apply Ascii.eqb_neq in Hx. now rewrite Hx.
Qed.

Lemma occurs_replace_other c x d s :
  occurs c d = false -> occurs c s = false -> occurs c (replace_all x d s) = false.
Proof.
  intros Hd. induction s as [|y r IH]; [reflexivity|].
  cbn [occurs replace_all]. intros H. apply orb_false_iff in H as [Hy Hr].
  destruct (Ascii.eqb y x).
  - now rewrite occurs_app, Hd, IH.
  - cbn [occurs]. rewrite Hy. now apply IH.
Qed.

Lemma url_safe_clean s :
  occurs "+" (url_safe s) = false /\ occurs "/" (url_safe s) = false /\
  occurs "=" (url_safe s) = false.
Proof.
  unfold url_safe. repeat split.
  - do 2 (apply occurs_replace_other; [reflexivity|]). now apply occurs_replace_all.
  - apply occurs_replace_other; [reflexivity|]. now apply occurs_replace_all.
  - now apply occurs_replace_all.
Qed.

(** ** Query strings *)

Ltac each_byte c := destruct c as [[] [] [] [] [] [] [] []].

Lemma form_decode_encode_cons c r :
  form_decode (form_encode (String c r)) = String c (form_decode (form_encode r)).
Proof. each_byte c; reflexivity. Qed.

Lemma form_decode_encode s : form_decode (form_encode s) = s.
Proof.
  induction s as [|c r IH]; [reflexivity|].
  rewrite form_decode_encode_cons. now rewrite IH.
Qed.

Lemma form_encode_no_amp s : occurs "&" (form_encode s) = false.
Proof.
  induction s as [|c r IH]; [reflexivity|].
  each_byte c; exact IH.
Qed.

Lemma form_encode_no_eq s : occurs "=" (form_encode s) = false.
Proof.
  induction s as [|c r IH]; [reflexivity|].
  each_byte c; exact IH.
Qed.

Lemma break_at_app c k v :
  occurs c k = false -> break_at c (k ++ String c v) = (k, v).
Proof.
  induction k as [|x k IH]; simpl.
  - intros _. now rewrite Ascii.eqb_refl.
  - intros H. apply orb_false_iff in H as [-> Hk]. now rewrite IH.
Qed.

Lemma split_on_clean c p : occurs c p = false -> split_on c p = [p].
Proof.
  induction p as [|x p IH]; simpl; [reflexivity|].
  intros H. apply orb_false_iff in H as [-> Hp]. now rewrite IH.
Qed.

Lemma split_on_app c p rest :
  occurs c p = false -> split_on c (p ++ String c rest) = p :: split_on c rest.
Proof.
  induction p as [|x p IH]; simpl.
  - intros _. now rewrite Ascii.eqb_refl.
  - intros H. apply orb_false_iff in H as [-> Hp]. now rewrite IH.
Qed.

Lemma split_on_join c (p : string) (ps : list string) :
  Forall (fun x => occurs c x = false) (p :: ps)%list ->
  split_on c (join (String c "") (p :: ps)%list) = (p :: ps)%list.
Proof.
  revert p. induction ps as [|q ps IH]; intros p H.
  - simpl. apply split_on_clean. now inversion H.
  - inversion H as [|? ? Hp Hrest]; subst.
    change (join (String c "") (p :: q :: ps)%list)
      with (p ++ String c (join (String c "") (q :: ps)%list)).
    rewrite split_on_app by assumption. now rewrite IH.
Qed.

Lemma entry_text_clean kv : occurs "&" (entry_text kv) = false.
Proof.
  unfold entry_text. rewrite !occurs_app, !form_encode_no_amp. reflexivity.
Qed.

Lemma entry_text_parse kv :
  (let p := break_at "=" (entry_text kv) in (form_decode (fst p), form_decode (snd p))) = kv.
Proof.
  unfold entry_text. cbn zeta. change ("=" ++ form_encode (snd kv)) with (String "=" (form_encode (snd kv))).
  rewrite break_at_app by apply form_encode_no_eq.
  cbn [fst snd]. rewrite !form_decode_encode. now destruct kv.
Qed.

Lemma join_nonempty sep x r : x <> "" -> join sep (x :: r)%list <> "".
Proof.
  intros Hx. destruct r as [|y r]; [exact Hx|].
  change (join sep (x :: y :: r)%list) with (x ++ sep ++ join sep (y :: r)%list).
  destruct x; [congruence|discriminate].
Qed.

(** Parsing undoes the serialiser of [URLSearchParams]. *)
Lemma parse_query_toString q : parse_query (toString q) = q.
Proof.
  unfold parse_query, toString. fold entry_text.
  destruct q as [|kv q]; [reflexivity|].
  destruct (String.eqb_spec (join "&" (map entry_text (kv :: q)%list)) "") as [E|_].
  - exfalso. revert E. apply join_nonempty. unfold entry_text.
    destruct (form_encode (fst kv)); discriminate.
  - cbn [map]. rewrite split_on_join.
    + rewrite <- map_cons, map_map. rewrite <- (map_id (kv :: q)%list) at 2.
      apply map_ext. intros a. apply entry_text_parse.
    + rewrite <- map_cons. apply Forall_map. apply Forall_forall. intros a _. apply entry_text_clean.
Qed.

(** ** The constructor and the operations, case by case *)

Lemma falsy_missing o : falsy o = true <-> missing o.
Proof.
  unfold falsy, truthy, missing. destruct o as [s|].
  - destruct (String.eqb_spec s ""); split; intros H; try discriminate.
    + right. now subst.
    + reflexivity.
    + destruct H as [H|H]; [discriminate|]. congruence.
  - split; auto.
Qed.

Lemma truthy_supplied o s : truthy o = Some s <-> supplied o s.
Proof.
  unfold truthy, supplied. destruct o as [x|].
  - destruct (String.eqb_spec x ""); split.
    + discriminate.
    + intros [[= ->] H]. congruence.
    + intros [= ->]. auto.
    + intros [[= ->] _]. reflexivity.
  - split; [discriminate|]. intros [H _]. discriminate.
Qed.

Lemma or_else_taken o d : taken_from o d (or_else o d).
Proof.
  unfold taken_from, or_else. split.
  - intros x Hx. apply truthy_supplied in Hx. now rewrite Hx.
  - intros Hn. destruct (truthy o) as [s|] eqn:E; [|reflexivity].
    apply truthy_supplied in E. now apply Hn in E.
Qed.

Lemma or_else_some o s : truthy o = Some s -> o = Some s.
Proof. intros H. apply truthy_supplied in H. apply H. Qed.

(** What the constructor does, case by case. *)
Lemma new_AuthService_run cfg c w :
  objects w !! cfg = Some c ->
  new_AuthService cfg w =
  if falsy (clientId c) || falsy (clientSecret c) || falsy (redirectUri c)
  then (Threw (Error "Missing required configuration parameters"), w)
  else match scopes c with
       | Some a => (Returned (built c a), w)
       | None =>
           let a := fresh (dom (arrays w)) in
           (Returned (built c a), set_arrays (<[a := DEFAULT_SCOPES]> (arrays w)) w)
       end.
Proof.
  intros Hc. unfold new_AuthService, bind, read_object. rewrite Hc.
  destruct (falsy (clientId c) || falsy (clientSecret c) || falsy (redirectUri c));
    [reflexivity|].
  destruct (scopes c); reflexivity.
Qed.

Lemma new_AuthService_built cfg w this w1 :
  new_AuthService cfg w = (Returned this, w1) ->
  exists c, objects w !! cfg = Some c /\
    falsy (clientId c) = false /\ falsy (clientSecret c) = false /\
    falsy (redirectUri c) = false /\
    same_ambient w w1 /\ objects w1 = objects w /\
    match scopes c with
    | Some a => this = built c a /\ w1 = w
    | None => this = built c (fresh (dom (arrays w))) /\
              arrays w1 = <[fresh (dom (arrays w)) := DEFAULT_SCOPES]> (arrays w)
    end.
Proof.
  destruct (objects w !! cfg) as [c|] eqn:Hc.
  - rewrite (new_AuthService_run cfg c w Hc).
    destruct (falsy (clientId c)) eqn:E1; [discriminate|].
    destruct (falsy (clientSecret c)) eqn:E2; [discriminate|].
    destruct (falsy (redirectUri c)) eqn:E3; [discriminate|].
    cbn [orb]. intros H. exists c. split; [reflexivity|].
    do 3 (split; [assumption|]).
    destruct (scopes c) as [a|]; injection H as <- <-; repeat split; reflexivity.
  - unfold new_AuthService, bind, read_object. rewrite Hc. discriminate.
Qed.

(** What [generateAuthorizationUrl] does, case by case. *)
Lemma generateAuthorizationUrl_run this p w :
  generateAuthorizationUrl this p w =
  let k1 := cursor w + 32 in
  match arrays w !! Required.scopes (config this) with
  | None => (Threw (TypeError "Cannot read properties of undefined"), set_cursor k1 w)
  | Some scope =>
      let n := or_else (nonce p) (hex_drawn w k1) in
      let k2 := if falsy (nonce p) then k1 + 16 else k1 in
      let s := or_else (state p) (hex_drawn w k2) in
      let k3 := if falsy (state p) then k2 + 16 else k2 in
      (Returned (authorize (endpoints this) ++ "?"
                 ++ toString (query_of this p scope n s
                                (generateCodeChallenge (verifier_drawn w)))),
       set_cursor k3 w)
  end.
Proof.
  unfold generateAuthorizationUrl, generateCodeVerifier, generateNonce, generateState,
    or_else_do, read_array, randomBytes, bind, ret, falsy, or_else, query_of,
    verifier_drawn, hex_drawn, set_cursor.
  cbn [arrays cursor entropy].
  destruct (arrays w !! Required.scopes (config this)) as [scope|]; [|reflexivity].
  destruct (truthy (nonce p)), (truthy (state p)); reflexivity.
Qed.

(** What a network operation does. *)
Lemma perform_run this c w :
  perform this c w =
  let log := (sent w ++ [request_of this c])%list in
  (match intercept (response_interceptors (client this)) (settle (remote w log)) with
   | Returned r => Returned (data r)
   | Threw e => Threw e
   end, set_sent log w).
Proof.
  destruct c; cbn [perform];
    unfold getTokens, getUserInfo, getConfiabilidadeNiveis, getConfiabilidadeSelos,
      post, get, request, bind, ret, request_of, target;
    cbn zeta;
    match goal with
    | |- context [intercept ?i ?o] => generalize (intercept i o)
    end; intros [r|e]; reflexivity.
Qed.

Lemma missing_falsy o : ~ missing o <-> falsy o = false.
Proof.
  rewrite <- falsy_missing. destruct (falsy o); split; auto; try discriminate.
  intros H. now contradiction H.
Qed.

Lemma required_missing_falsy c :
  missing (clientId c) \/ missing (clientSecret c) \/ missing (redirectUri c) <->
  falsy (clientId c) || falsy (clientSecret c) || falsy (redirectUri c) = true.
Proof.
  rewrite !orb_true_iff, !falsy_missing. tauto.
Qed.

Lemma or_else_present o : falsy o = false -> o = Some (or_else o "").
Proof.
  unfold falsy, or_else. destruct (truthy o) as [s|] eqn:E; [|discriminate].
  intros _. now apply or_else_some.
Qed.

Lemma hex_drawn_ext w1 w2 k :
  (forall i, k <= i -> entropy w1 i = entropy w2 i) -> hex_drawn w1 k = hex_drawn w2 k.
Proof.
  intros H. unfold hex_drawn. do 2 f_equal.
  apply map_ext_in. intros i Hi. apply H. apply in_seq in Hi. lia.
Qed.

Lemma set_cursor_cursor k w : cursor (set_cursor k w) = k.
Proof. reflexivity. Qed.

(** The URL depends on the world through the scopes array, the position of
    the random source, and the bytes drawn after the verifier. *)
Lemma generateAuthorizationUrl_ext this p w1 w2 :
  arrays w1 !! Required.scopes (config this) = arrays w2 !! Required.scopes (config this) ->
  cursor w1 = cursor w2 ->
  (forall i, cursor w1 + 32 <= i -> entropy w1 i = entropy w2 i) ->
  generateCodeChallenge (verifier_drawn w1) = generateCodeChallenge (verifier_drawn w2) ->
  fst (generateAuthorizationUrl this p w1) = fst (generateAuthorizationUrl this p w2) /\
  cursor (snd (generateAuthorizationUrl this p w1))
  = cursor (snd (generateAuthorizationUrl this p w2)).
Proof.
  intros Ha Hk He Hc. rewrite !generateAuthorizationUrl_run. cbn zeta.
  rewrite <- Ha, <- Hk, <- Hc.
  destruct (arrays w1 !! Required.scopes (config this)) as [scope|]; [|split; reflexivity].
  cbn [fst snd]. rewrite !set_cursor_cursor.
  rewrite <- (hex_drawn_ext w1 w2 (cursor w1 + 32)) by exact He.
  rewrite <- (hex_drawn_ext w1 w2 (if falsy (nonce p) then cursor w1 + 32 + 16 else cursor w1 + 32)).
  - split; reflexivity.
  - intros i Hi. apply He. destruct (falsy (nonce p)); lia.
Qed.

Lemma generateAuthorizationUrl_frame this p w :
  exists k, snd (generateAuthorizationUrl this p w) = set_cursor k w /\ cursor w + 32 <= k.
Proof.
  rewrite generateAuthorizationUrl_run. cbn zeta.
  destruct (arrays w !! Required.scopes (config this)).
  - eexists. split; [reflexivity|]. destruct (falsy (nonce p)), (falsy (state p)); lia.
  - eexists. split; [reflexivity|]. lia.
Qed.

Lemma verifier_drawn_ext w1 w2 :
  entropy w1 = entropy w2 -> cursor w1 = cursor w2 -> verifier_drawn w1 = verifier_drawn w2.
Proof. unfold verifier_drawn. now intros -> ->. Qed.

Lemma generateAuthorizationUrl_observe this p w1 w2 :
  same_ambient w1 w2 ->
  arrays w1 !! Required.scopes (config this) = arrays w2 !! Required.scopes (config this) ->
  observe (generateAuthorizationUrl this p w1) = observe (generateAuthorizationUrl this p w2).
Proof.
  intros (He & Hk & Hr & Hs) Ha.
  rewrite !generateAuthorizationUrl_run. cbn zeta.
  rewrite <- Ha, <- Hk, (verifier_drawn_ext w1 w2 He Hk).
  unfold hex_drawn. rewrite <- He.
  destruct (arrays w1 !! Required.scopes (config this)); unfold observe;
    cbn [fst snd cursor sent set_cursor]; now rewrite Hs.
Qed.

Lemma perform_observe this c w1 w2 :
  same_ambient w1 w2 -> observe (perform this c w1) = observe (perform this c w2).
Proof.
  intros (He & Hk & Hr & Hs). rewrite !perform_run. unfold observe.
  cbn [fst snd cursor sent set_sent]. now rewrite Hr, Hs, Hk.
Qed.

Lemma entry_scope this p scope n s ch :
  entry "scope" (query_of this p scope n s ch) = Some (join " " scope).
Proof. reflexivity. Qed.

Lemma generateLogoutUrl_run this uri :
  generateLogoutUrl this uri
  = logout (endpoints this) ++ "?post_logout_redirect_uri=" ++ form_encode uri.
Proof. reflexivity. Qed.

Lemma staging_authorize x :
  authorize (ENDPOINTS staging) ++ "?" ++ x
  = "https://sso.staging.acesso.gov.br/authorize?" ++ x.
Proof. reflexivity. Qed.

Lemma staging_logout x :
  logout (ENDPOINTS staging) ++ "?post_logout_redirect_uri=" ++ x
  = "https://sso.staging.acesso.gov.br/logout?post_logout_redirect_uri=" ++ x.
Proof. reflexivity. Qed.

Lemma staging_target call :
  target (ENDPOINTS staging) call =
  match call with
  | GetTokens _ _ => "https://sso.staging.acesso.gov.br/token"
  | GetUserInfo _ => "https://sso.staging.acesso.gov.br/userinfo"
  | GetConfiabilidadeNiveis _ cpf =>
      "https://api.staging.acesso.gov.br/confiabilidades/v3/contas/" ++ cpf ++ "/niveis"
  | GetConfiabilidadeSelos _ cpf =>
      "https://api.staging.acesso.gov.br/confiabilidades/v3/contas/" ++ cpf
      ++ "/confiabilidades"
  end.
Proof. destruct call; reflexivity. Qed.

(** ** The code challenge

    C5. [generateCodeChallenge] is a function of the verifier alone (it
    takes no world). Its result is the base64 text of the SHA-256 digest of
    the verifier with [+] replaced by [-], [/] by [_] and [=] removed: it
    decodes back to the digest, and holds no [+], [/] or [=]. *)
Theorem code_challenge_derivation verifier :
  generateCodeChallenge verifier
  = replace_all "="%char ""
      (replace_all "/"%char "_"
         (replace_all "+"%char "-" (to_base64 (Sha256.digest verifier)))) /\
  from_base64 (reverse_url_safe (generateCodeChallenge verifier))
  = Some (Sha256.digest verifier) /\
  occurs "+" (generateCodeChallenge verifier) = false /\
  occurs "/" (generateCodeChallenge verifier) = false /\
  occurs "=" (generateCodeChallenge verifier) = false.
Proof.
  split; [reflexivity|]. split.
  - apply (base64URLEncode_decodes (Sha256.digest verifier)).
  - apply (url_safe_clean (to_base64 (Sha256.digest verifier))).
Qed.

Example code_challenge_abc :
  generateCodeChallenge "abc" = "ungWv48Bz-pBQUDeXa4iI7ADYaOWF3qctBD_YfIAFa0".
Proof. vm_compute. reflexivity. Qed.

(** ** The logout URL

    C8. [generateLogoutUrl] is a function of the service and the URI alone
    (no world: no network, no randomness). It returns the logout endpoint
    followed by [?post_logout_redirect_uri=] and the form-encoded URI, from
    which decoding gives the URI back; for [https://app.test/done] the
    encoded text is [https%3A%2F%2Fapp.test%2Fdone]. *)
Theorem logout_url this postLogoutRedirectUri :
  generateLogoutUrl this postLogoutRedirectUri
  = logout (endpoints this) ++ "?post_logout_redirect_uri=" ++ form_encode postLogoutRedirectUri /\
  form_decode (form_encode postLogoutRedirectUri) = postLogoutRedirectUri /\
  generateLogoutUrl this "https://app.test/done"
  = logout (endpoints this) ++ "?post_logout_redirect_uri=https%3A%2F%2Fapp.test%2Fdone".
Proof.
  split; [reflexivity|]. split; [apply form_decode_encode|reflexivity].
Qed.

(** ** The token exchange

    C4. [getTokens] issues exactly one request, a POST to the token
    endpoint of the service. Its [Authorization] header is [Basic] followed
    by a value which, once the URL-safe mapping is reversed and the padding
    restored, base64-decodes to [clientId:clientSecret]. Its body has the
    four entries [grant_type=authorization_code], [code], [redirect_uri],
    [code_verifier], and is sent form-encoded. *)
Theorem getTokens_request this code codeVerifier w :
  exists req value,
    sent (snd (getTokens this code codeVerifier w)) = (sent w ++ [req])%list /\
    method req = POST /\
    url req = token (endpoints this) /\
    entry "Authorization" (headers req) = Some ("Basic " ++ value) /\
    from_base64 (reverse_url_safe value)
    = Some (Required.clientId (config this) ++ ":" ++ Required.clientSecret (config this)) /\
    entry "Content-Type" (headers req) = Some "application/x-www-form-urlencoded" /\
    body req = Some [ ("grant_type", "authorization_code");
                      ("code", code);
                      ("redirect_uri", Required.redirectUri (config this));
                      ("code_verifier", codeVerifier) ] /\
    forall b, body req = Some b -> parse_query (toString b) = b.
Proof.
  exists (request_of this (GetTokens code codeVerifier)).
  exists (base64URLEncode (Required.clientId (config this) ++ ":"
                           ++ Required.clientSecret (config this))).
  change (getTokens this code codeVerifier) with (perform this (GetTokens code codeVerifier)).
  rewrite perform_run. cbn zeta. cbn [snd sent set_sent].
  repeat split.
  - apply base64URLEncode_decodes.
  - intros b _. apply parse_query_toString.
Qed.

(** ** The authorization URL

    C6, amended. The result is the authorize endpoint, [?], and the
    serialisation of exactly eight entries, in this order: [response_type],
    [client_id], [scope] (the scopes joined by spaces), [redirect_uri],
    [nonce], [state], [code_challenge], [code_challenge_method]. Parsing
    the query gives these entries back. The value of each optional
    parameter is the caller's when it was supplied and is not empty, and
    otherwise the default ([code], [S256]) or the generated value. *)
Theorem authorization_url_entries this p w scope :
  arrays w !! Required.scopes (config this) = Some scope ->
  exists rt n s ch m,
    let entries :=
      [ ("response_type", rt);
        ("client_id", Required.clientId (config this));
        ("scope", join " " scope);
        ("redirect_uri", Required.redirectUri (config this));
        ("nonce", n);
        ("state", s);
        ("code_challenge", ch);
        ("code_challenge_method", m) ] in
    fst (generateAuthorizationUrl this p w)
    = Returned (authorize (endpoints this) ++ "?" ++ toString entries) /\
    parse_query (toString entries) = entries /\
    taken_from (responseType p) "code" rt /\
    taken_from (nonce p) (hex_drawn w (cursor w + 32)) n /\
    taken_from (state p)
      (hex_drawn w (if falsy (nonce p) then cursor w + 32 + 16 else cursor w + 32)) s /\
    taken_from (codeChallenge p) (generateCodeChallenge (verifier_drawn w)) ch /\
    taken_from (codeChallengeMethod p) "S256" m.
Proof.
  intros Hw. rewrite generateAuthorizationUrl_run. cbn zeta. rewrite Hw. cbn [fst].
  do 5 eexists. split; [reflexivity|]. split; [apply parse_query_toString|].
  do 4 (split; [apply or_else_taken|]). apply or_else_taken.
Qed.

Lemma authorization_url_entries_witness :
  let this := built (sample_config (Some 1) None) 1 in
  let p := sample_params (Some "n1") (Some "s1") in
  exists rt n s ch m,
    let entries :=
      [ ("response_type", rt); ("client_id", "id"); ("scope", "openid email");
        ("redirect_uri", "https://app.test/cb"); ("nonce", n); ("state", s);
        ("code_challenge", ch); ("code_challenge_method", m) ] in
    fst (generateAuthorizationUrl this p before)
    = Returned ("https://sso.acesso.gov.br/authorize" ++ "?" ++ toString entries) /\
    parse_query (toString entries) = entries /\
    taken_from (responseType p) "code" rt /\
    taken_from (nonce p) (hex_drawn before (cursor before + 32)) n /\
    taken_from (state p)
      (hex_drawn before (if falsy (nonce p) then cursor before + 32 + 16
                         else cursor before + 32)) s /\
    taken_from (codeChallenge p) (generateCodeChallenge (verifier_drawn before)) ch /\
    taken_from (codeChallengeMethod p) "S256" m.
Proof.
  exact (authorization_url_entries (built (sample_config (Some 1) None) 1)
           (sample_params (Some "n1") (Some "s1")) before ["openid"; "email"] eq_refl).
Defined.

(** C6 as stated fails: a parameter supplied as the empty string is not
    taken as it is, the generated value replaces it. *)
Lemma empty_param_is_replaced :
  ~ (forall this p w scope x,
       arrays w !! Required.scopes (config this) = Some scope ->
       state p = Some x ->
       exists q,
         fst (generateAuthorizationUrl this p w)
         = Returned (authorize (endpoints this) ++ "?" ++ q) /\
         entry "state" (parse_query q) = Some x).
Proof.
  intros H.
  destruct (H (built (sample_config (Some 1) None) 1) (sample_params None (Some ""))
              before ["openid"; "email"] "" eq_refl eq_refl) as (q & Hq & Hstate).
  vm_compute in Hq. injection Hq as <-.
  vm_compute in Hstate. discriminate Hstate.
Qed.

(** The example of the specification: the supplied values appear as they
    are, in the order of the entries. *)
Example authorization_url_example :
  fst (generateAuthorizationUrl (built (sample_config (Some 1) None) 1)
         (sample_params (Some "n1") (Some "s1")) before)
  = Returned
      ("https://sso.acesso.gov.br/authorize?response_type=code&client_id=id"
       ++ "&scope=openid+email&redirect_uri=https%3A%2F%2Fapp.test%2Fcb"
       ++ "&nonce=n1&state=s1"
       ++ "&code_challenge=Ucth0C-OcYdc4s8JT_o3Lll7KsfpNlpYmwObmzH89UA"
       ++ "&code_challenge_method=S256").
Proof. vm_compute. reflexivity. Qed.

(** C3. When the caller supplies no [codeChallenge], the verifier drawn by
    [generateAuthorizationUrl] reaches the result only through its
    challenge: two runs whose verifiers have the same challenge return the
    same URL, whose [code_challenge] entry is that challenge. The call
    returns the URL alone and leaves the world as it was but for the
    consumption of random bytes; the service value is not changed by any
    operation, so nothing keeps the verifier. *)
Theorem code_verifier_is_discarded this p w1 w2 :
  codeChallenge p = None ->
  arrays w1 !! Required.scopes (config this) = arrays w2 !! Required.scopes (config this) ->
  cursor w1 = cursor w2 ->
  (forall i, cursor w1 + 32 <= i -> entropy w1 i = entropy w2 i) ->
  generateCodeChallenge (verifier_drawn w1) = generateCodeChallenge (verifier_drawn w2) ->
  fst (generateAuthorizationUrl this p w1) = fst (generateAuthorizationUrl this p w2) /\
  (exists k, snd (generateAuthorizationUrl this p w1) = set_cursor k w1) /\
  (forall scope, arrays w1 !! Required.scopes (config this) = Some scope ->
   exists q, fst (generateAuthorizationUrl this p w1)
             = Returned (authorize (endpoints this) ++ "?" ++ q) /\
             entry "code_challenge" (parse_query q)
             = Some (generateCodeChallenge (verifier_drawn w1))).
Proof.
  intros Hp Ha Hk He Hc. split; [|split].
  - now apply generateAuthorizationUrl_ext.
  - destruct (generateAuthorizationUrl_frame this p w1) as (k & Hk' & _). eauto.
  - intros scope Hs. rewrite generateAuthorizationUrl_run. cbn zeta. rewrite Hs. cbn [fst].
    eexists. split; [reflexivity|]. rewrite parse_query_toString.
    unfold query_of, entry. cbn [find fst snd]. rewrite Hp. reflexivity.
Qed.

Lemma code_verifier_is_discarded_witness :
  let this := built (sample_config (Some 1) None) 1 in
  let w1 := set_cursor 5 before in
  let w2 := redrawn w1 in
  fst (generateAuthorizationUrl this no_params w1)
  = fst (generateAuthorizationUrl this no_params w2) /\
  (exists k, snd (generateAuthorizationUrl this no_params w1) = set_cursor k w1) /\
  (forall scope, arrays w1 !! Required.scopes (config this) = Some scope ->
   exists q, fst (generateAuthorizationUrl this no_params w1)
             = Returned (authorize (endpoints this) ++ "?" ++ q) /\
             entry "code_challenge" (parse_query q)
             = Some (generateCodeChallenge (verifier_drawn w1))).
Proof.
  apply (code_verifier_is_discarded (built (sample_config (Some 1) None) 1) no_params
           (set_cursor 5 before) (redrawn (set_cursor 5 before))).
  - reflexivity.
  - reflexivity.
  - reflexivity.
  - intros i Hi. cbn [redrawn entropy cursor set_cursor] in *.
    destruct (Nat.ltb_spec i 5); [lia|reflexivity].
  - vm_compute. reflexivity.
Defined.

(** ** Construction

    C2. Construction fails, with the configuration error, if and only if
    one of [clientId], [clientSecret], [redirectUri] is absent or empty.
    When the three are non-empty it succeeds: the three fields are kept,
    [environment] is [production] when omitted and the given one otherwise,
    [scopes] is a new array holding [openid], [email], [profile],
    [govbr_confiabilidades] when omitted and the given array otherwise. *)
Theorem construction_fails_iff_required_missing cfg c w :
  objects w !! cfg = Some c ->
  ((exists e, fst (new_AuthService cfg w) = Threw e) <->
   missing (clientId c) \/ missing (clientSecret c) \/ missing (redirectUri c)) /\
  (forall e, fst (new_AuthService cfg w) = Threw e ->
   e = Error "Missing required configuration parameters") /\
  (~ (missing (clientId c) \/ missing (clientSecret c) \/ missing (redirectUri c)) ->
   exists this w',
     new_AuthService cfg w = (Returned this, w') /\
     clientId c = Some (Required.clientId (config this)) /\
     clientSecret c = Some (Required.clientSecret (config this)) /\
     redirectUri c = Some (Required.redirectUri (config this)) /\
     (environment c = None -> Required.environment (config this) = production) /\
     (forall e, environment c = Some e -> Required.environment (config this) = e) /\
     (scopes c = None ->
      arrays w' !! Required.scopes (config this)
      = Some ["openid"; "email"; "profile"; "govbr_confiabilidades"]) /\
     (forall a, scopes c = Some a -> Required.scopes (config this) = a)).
Proof.
  intros Hc. rewrite (new_AuthService_run cfg c w Hc), required_missing_falsy.
  destruct (falsy (clientId c) || falsy (clientSecret c) || falsy (redirectUri c)) eqn:E.
  - split; [|split].
    + split; [reflexivity|]. intros _. eexists. reflexivity.
    + intros e [= <-]. reflexivity.
    + intros H. now contradiction H.
  - apply orb_false_iff in E as [E E3]. apply orb_false_iff in E as [E1 E2].
    split; [|split].
    + split; [|discriminate]. intros [e He]. destruct (scopes c); discriminate.
    + intros e He. destruct (scopes c); discriminate.
    + intros _.
      assert (Hfields : forall a,
        clientId c = Some (Required.clientId (config (built c a))) /\
        clientSecret c = Some (Required.clientSecret (config (built c a))) /\
        redirectUri c = Some (Required.redirectUri (config (built c a))) /\
        (environment c = None -> Required.environment (config (built c a)) = production) /\
        (forall e, environment c = Some e -> Required.environment (config (built c a)) = e)).
      { intros a. cbn. repeat split; try now apply or_else_present.
        - now intros ->.
        - now intros e ->. }
      destruct (scopes c) as [a|] eqn:Hs.
      * exists (built c a), w. split; [reflexivity|].
        destruct (Hfields a) as (F1 & F2 & F3 & F4 & F5).
        repeat split; try assumption; [discriminate|]. now intros a' [= <-].
      * exists (built c (fresh (dom (arrays w)))),
          (set_arrays (<[fresh (dom (arrays w)) := DEFAULT_SCOPES]> (arrays w)) w).
        split; [reflexivity|].
        destruct (Hfields (fresh (dom (arrays w)))) as (F1 & F2 & F3 & F4 & F5).
        repeat split; try assumption; [|discriminate].
        intros _. cbn. apply lookup_insert_eq.
Qed.

Lemma construction_fails_iff_required_missing_witness :
  let c := sample_config None None in
  let w := sample_world c [] ok_reply in
  ((exists e, fst (new_AuthService 0 w) = Threw e) <->
   missing (clientId c) \/ missing (clientSecret c) \/ missing (redirectUri c)) /\
  (forall e, fst (new_AuthService 0 w) = Threw e ->
   e = Error "Missing required configuration parameters") /\
  (~ (missing (clientId c) \/ missing (clientSecret c) \/ missing (redirectUri c)) ->
   exists this w',
     new_AuthService 0 w = (Returned this, w') /\
     clientId c = Some (Required.clientId (config this)) /\
     clientSecret c = Some (Required.clientSecret (config this)) /\
     redirectUri c = Some (Required.redirectUri (config this)) /\
     (environment c = None -> Required.environment (config this) = production) /\
     (forall e, environment c = Some e -> Required.environment (config this) = e) /\
     (scopes c = None ->
      arrays w' !! Required.scopes (config this)
      = Some ["openid"; "email"; "profile"; "govbr_confiabilidades"]) /\
     (forall a, scopes c = Some a -> Required.scopes (config this) = a)).
Proof.
  exact (construction_fails_iff_required_missing 0 (sample_config None None)
           (sample_world (sample_config None None) [] ok_reply) eq_refl).
Defined.

(** Construction on concrete configurations. *)
Example construction_rejects_empty_secret :
  fst (new_AuthService 0
         (sample_world {| clientId := Some "id"; clientSecret := Some "";
                          redirectUri := Some "https://app.test/cb";
                          environment := None; scopes := None |} [] ok_reply))
  = Threw (Error "Missing required configuration parameters").
Proof. vm_compute. reflexivity. Qed.

Example construction_applies_defaults :
  let r := new_AuthService 0 (sample_world (sample_config None None) [] ok_reply) in
  exists this,
    fst r = Returned this /\
    Required.environment (config this) = production /\
    arrays (snd r) !! Required.scopes (config this)
    = Some ["openid"; "email"; "profile"; "govbr_confiabilidades"].
Proof. eexists. vm_compute. repeat split. Qed.

(** ** A constructed service

    The service [this] that [new AuthService(config)] returned, in the world
    [w1] it left, from the object [c] found at [cfg] in the world [w0]. *)

Section Constructed.

Variables (cfg : loc) (c : GovBRConfig) (w0 w1 : World) (this : AuthService).
Hypothesis Hconfig : objects w0 !! cfg = Some c.
Hypothesis Hnew : new_AuthService cfg w0 = (Returned this, w1).

Lemma constructed_shape :
  match scopes c with
  | Some a => this = built c a /\ w1 = w0
  | None => this = built c (fresh (dom (arrays w0))) /\
            arrays w1 = <[fresh (dom (arrays w0)) := DEFAULT_SCOPES]> (arrays w0)
  end.
Proof.
  destruct (new_AuthService_built _ _ _ _ Hnew) as (c' & Hc' & _ & _ & _ & _ & _ & Hthis).
  rewrite Hconfig in Hc'. now injection Hc' as <-.
Qed.

Lemma constructed_built : exists a, this = built c a.
Proof.
  pose proof constructed_shape as H.
  destruct (scopes c); destruct H as [-> _]; eauto.
Qed.

Lemma constructed_client :
  response_interceptors (client this)
  = [ {| onFulfilled := fun response => Returned response; onRejected := rethrow |} ].
Proof.
  destruct (new_AuthService_built _ _ _ _ Hnew) as (c' & _ & _ & _ & _ & _ & _ & H).
  destruct (scopes c'); destruct H as [-> _]; reflexivity.
Qed.

Lemma constructed_endpoints :
  endpoints this = ENDPOINTS (match environment c with Some e => e | None => production end).
Proof. destruct constructed_built as [a ->]. reflexivity. Qed.

Lemma constructed_scopes_allocated :
  scopes c = None ->
  (Required.scopes (config this) ∉ dom (arrays w0)) /\
  (Required.scopes (config this) ∈ dom (arrays w1)).
Proof.
  intros Hs. pose proof constructed_shape as H. rewrite Hs in H. destruct H as [-> Hw1].
  cbn [built config Required.scopes]. split; [apply is_fresh|].
  rewrite Hw1. apply elem_of_dom. rewrite lookup_insert_eq. eauto.
Qed.

Lemma constructed_scopes_supplied a :
  scopes c = Some a -> Required.scopes (config this) = a /\ w1 = w0.
Proof.
  intros Hs. pose proof constructed_shape as H. rewrite Hs in H. now destruct H as [-> ->].
Qed.

(** ** The resolved configuration

    C1, amended. The constructor copies the fields of the caller's object.
    Afterwards the caller may reassign any field of any of its objects and
    change any array other than the one it passed as [scopes]: as long as
    that array is not mutated in place (and the array the constructor made
    itself, when [scopes] was omitted, is out of reach), every later
    [generateAuthorizationUrl] and every network operation behaves as
    before. [generateLogoutUrl] does not read the world at all. *)
Theorem resolved_config_frozen w2 :
  same_ambient w1 w2 ->
  (forall a, scopes c = Some a -> arrays w2 !! a = arrays w1 !! a) ->
  (forall a, a ∉ dom (arrays w0) -> a ∈ dom (arrays w1) ->
             arrays w2 !! a = arrays w1 !! a) ->
  (forall p, observe (generateAuthorizationUrl this p w2)
             = observe (generateAuthorizationUrl this p w1)) /\
  (forall call, observe (perform this call w2) = observe (perform this call w1)).
Proof.
  intros Hamb Hsupplied Hfresh.
  assert (Hscopes : arrays w1 !! Required.scopes (config this)
                    = arrays w2 !! Required.scopes (config this)).
  { destruct (scopes c) as [a|] eqn:Hs.
    - destruct (constructed_scopes_supplied a Hs) as [-> _]. symmetry. now apply Hsupplied.
    - destruct (constructed_scopes_allocated Hs) as [Hout Hin]. symmetry. now apply Hfresh. }
  split.
  - intros p. symmetry. now apply generateAuthorizationUrl_observe.
  - intros call. symmetry. now apply perform_observe.
Qed.

(** C10, amended. A configuration whose [scopes] is an empty array keeps
    it: the default list is not applied, the service's scopes are that
    empty array,
    and as long as it is empty the [scope] entry of every authorization URL
    is the empty string. *)
Theorem empty_scopes_are_kept a :
  scopes c = Some a ->
  arrays w0 !! a = Some [] ->
  Required.scopes (config this) = a /\
  arrays w1 !! Required.scopes (config this) = Some [] /\
  forall p w, arrays w !! a = Some [] ->
    exists q,
      fst (generateAuthorizationUrl this p w)
      = Returned (authorize (endpoints this) ++ "?" ++ q) /\
      entry "scope" (parse_query q) = Some "".
Proof.
  intros Hs Ha. destruct (constructed_scopes_supplied a Hs) as [Hthis ->].
  rewrite Hthis. split; [reflexivity|]. split; [exact Ha|].
  intros p w Hw. rewrite generateAuthorizationUrl_run. cbn zeta.
  rewrite Hthis, Hw. cbn [fst].
  eexists. split; [reflexivity|].
  rewrite parse_query_toString. apply entry_scope.
Qed.

(** ** Error normalisation

    C7. For a constructed service and any of the four network operations: a
    2xx response returns its data; a response outside 2xx is rethrown as a
    [GovBRAuthError] with the message of the transport, the code
    [API_ERROR], the status of the response and the original error; a
    transport failure without response likewise, without status; any other
    exception passes through as it is. *)
Theorem transport_failures_are_rethrown call w :
  exists req,
    sent (snd (perform this call w)) = (sent w ++ [req])%list /\
    (forall resp,
       remote w (sent w ++ [req])%list = Replied resp ->
       (200 <= status resp < 300)%Z ->
       fst (perform this call w) = Returned (data resp)) /\
    (forall resp,
       remote w (sent w ++ [req])%list = Replied resp ->
       ~ (200 <= status resp < 300)%Z ->
       let message := "Request failed with status code " ++ pretty (status resp) in
       fst (perform this call w)
       = Threw (GovBRAuthError message "API_ERROR" (Some (status resp))
                  (Some (AxiosError message (Some resp))))) /\
    (forall message response,
       remote w (sent w ++ [req])%list = Failed (AxiosError message response) ->
       fst (perform this call w)
       = Threw (GovBRAuthError message "API_ERROR"
                  (match response with Some r => Some (status r) | None => None end)
                  (Some (AxiosError message response)))) /\
    (forall e,
       remote w (sent w ++ [req])%list = Failed e ->
       isAxiosError e = false ->
       fst (perform this call w) = Threw e).
Proof.
  exists (request_of this call).
  rewrite perform_run. cbn zeta. cbn [fst snd sent set_sent].
  rewrite constructed_client. unfold intercept. cbn [fold_left onFulfilled onRejected].
  split; [reflexivity|]. repeat split.
  - intros resp -> Hok. unfold settle, validateStatus.
    destruct (Z.leb_spec 200 (status resp)); [|lia].
    destruct (Z.ltb_spec (status resp) 300); [|lia]. reflexivity.
  - intros resp -> Hbad. unfold settle, validateStatus. cbn zeta.
    destruct (Z.leb_spec 200 (status resp)); [|reflexivity].
    destruct (Z.ltb_spec (status resp) 300); [lia|]. reflexivity.
  - intros message [r|] ->; reflexivity.
  - intros e -> He. unfold settle, rethrow. now rewrite He.
Qed.

(** ** Endpoints

    C9. A service constructed with [environment: 'staging'] holds the
    staging table, and in every world its six operations address it: the
    authorization URL, the token exchange, userinfo, trust levels, trust
    seals and the logout URL. *)
Theorem staging_routes_every_operation :
  environment c = Some staging ->
  endpoints this = ENDPOINTS staging /\
  (forall p w u,
     fst (generateAuthorizationUrl this p w) = Returned u ->
     exists q, u = "https://sso.staging.acesso.gov.br/authorize?" ++ q) /\
  (forall call w,
     exists req,
       sent (snd (perform this call w)) = (sent w ++ [req])%list /\
       url req =
       match call with
       | GetTokens _ _ => "https://sso.staging.acesso.gov.br/token"
       | GetUserInfo _ => "https://sso.staging.acesso.gov.br/userinfo"
       | GetConfiabilidadeNiveis _ cpf =>
           "https://api.staging.acesso.gov.br/confiabilidades/v3/contas/" ++ cpf ++ "/niveis"
       | GetConfiabilidadeSelos _ cpf =>
           "https://api.staging.acesso.gov.br/confiabilidades/v3/contas/" ++ cpf
           ++ "/confiabilidades"
       end) /\
  (forall uri,
     generateLogoutUrl this uri
     = "https://sso.staging.acesso.gov.br/logout?post_logout_redirect_uri=" ++ form_encode uri).
Proof.
  intros He.
  pose proof constructed_endpoints as Hend. rewrite He in Hend.
  split; [exact Hend|]. split; [|split].
  - intros p w u. rewrite generateAuthorizationUrl_run. cbn zeta.
    destruct (arrays w !! Required.scopes (config this)); [|discriminate].
    cbn [fst]. intros [= <-]. rewrite Hend, staging_authorize. eexists. reflexivity.
  - intros call w. exists (request_of this call). rewrite perform_run.
    split; [reflexivity|].
    unfold request_of. cbn [url]. rewrite Hend. apply staging_target.
  - intros uri. rewrite generateLogoutUrl_run, Hend. apply staging_logout.
Qed.

End Constructed.

Lemma resolved_config_frozen_witness :
  let this := built (sample_config (Some 1) None) 1 in
  (forall p, observe (generateAuthorizationUrl this p after)
             = observe (generateAuthorizationUrl this p before)) /\
  (forall call, observe (perform this call after) = observe (perform this call before)).
Proof.
  apply (resolved_config_frozen 0 (sample_config (Some 1) None) before before
           (built (sample_config (Some 1) None) 1) eq_refl eq_refl after).
  - repeat split.
  - intros a [= <-]. vm_compute. reflexivity.
  - intros a Hout Hin. exfalso. exact (Hout Hin).
Defined.

(** The same when [scopes] was omitted: the caller pushes to the only array
    it has, the service reads the one the constructor made. *)
Example default_scopes_out_of_reach :
  let c := sample_config None None in
  let w0 := sample_world c ["x"] ok_reply in
  let r := new_AuthService 0 w0 in
  match fst r with
  | Returned this =>
      fst (generateAuthorizationUrl this no_params (push 1 "y" (snd r)))
      = fst (generateAuthorizationUrl this no_params (snd r))
  | Threw _ => False
  end.
Proof. vm_compute. reflexivity. Qed.

(** C1 as stated fails: the service holds the caller's [scopes] array by
    reference, so a [push] on it after construction changes the URL. *)
Lemma scopes_array_is_shared :
  ~ (forall cfg c a w0 this w1 x p,
       objects w0 !! cfg = Some c -> scopes c = Some a ->
       new_AuthService cfg w0 = (Returned this, w1) ->
       fst (generateAuthorizationUrl this p (push a x w1))
       = fst (generateAuthorizationUrl this p w1)).
Proof.
  intros H.
  specialize (H 0 (sample_config (Some 1) None) 1 before
                (built (sample_config (Some 1) None) 1) before "admin" no_params
                eq_refl eq_refl eq_refl).
  vm_compute in H. discriminate H.
Qed.

(** The two URLs of that run: [scopes] is [['openid', 'email']] at
    construction, and the caller pushes ['admin'] afterwards. *)
Example scopes_before_push :
  new_AuthService 0 before = (Returned (built (sample_config (Some 1) None) 1), before) /\
  fst (generateAuthorizationUrl (built (sample_config (Some 1) None) 1) no_params before)
  = Returned
      ("https://sso.acesso.gov.br/authorize?response_type=code&client_id=id"
       ++ "&scope=openid+email&redirect_uri=https%3A%2F%2Fapp.test%2Fcb"
       ++ "&nonce=e3eaf1f8ff060d141b222930373e454c&state=535a61686f767d848b9299a0a7aeb5bc"
       ++ "&code_challenge=Ucth0C-OcYdc4s8JT_o3Lll7KsfpNlpYmwObmzH89UA"
       ++ "&code_challenge_method=S256").
Proof. split; vm_compute; reflexivity. Qed.

Example scopes_after_push :
  fst (generateAuthorizationUrl (built (sample_config (Some 1) None) 1) no_params
         (push 1 "admin" before))
  = Returned
      ("https://sso.acesso.gov.br/authorize?response_type=code&client_id=id"
       ++ "&scope=openid+email+admin&redirect_uri=https%3A%2F%2Fapp.test%2Fcb"
       ++ "&nonce=e3eaf1f8ff060d141b222930373e454c&state=535a61686f767d848b9299a0a7aeb5bc"
       ++ "&code_challenge=Ucth0C-OcYdc4s8JT_o3Lll7KsfpNlpYmwObmzH89UA"
       ++ "&code_challenge_method=S256").
Proof. vm_compute. reflexivity. Qed.

Lemma empty_scopes_are_kept_witness :
  let c := sample_config (Some 1) None in
  let w0 := sample_world c [] ok_reply in
  Required.scopes (config (built c 1)) = 1 /\
  arrays w0 !! Required.scopes (config (built c 1)) = Some [] /\
  forall p w, arrays w !! 1 = Some [] ->
    exists q,
      fst (generateAuthorizationUrl (built c 1) p w)
      = Returned (authorize (endpoints (built c 1)) ++ "?" ++ q) /\
      entry "scope" (parse_query q) = Some "".
Proof.
  exact (empty_scopes_are_kept 0 (sample_config (Some 1) None)
           (sample_world (sample_config (Some 1) None) [] ok_reply)
           (sample_world (sample_config (Some 1) None) [] ok_reply)
           (built (sample_config (Some 1) None) 1)
           eq_refl eq_refl 1 eq_refl eq_refl).
Defined.

Example empty_scopes_url :
  let c := sample_config (Some 1) None in
  fst (generateAuthorizationUrl (built c 1) (sample_params (Some "n1") (Some "s1"))
         (sample_world c [] ok_reply))
  = Returned
      ("https://sso.acesso.gov.br/authorize?response_type=code&client_id=id"
       ++ "&scope=&redirect_uri=https%3A%2F%2Fapp.test%2Fcb&nonce=n1&state=s1"
       ++ "&code_challenge=Ucth0C-OcYdc4s8JT_o3Lll7KsfpNlpYmwObmzH89UA"
       ++ "&code_challenge_method=S256").
Proof. vm_compute. reflexivity. Qed.

(** C10 as stated fails: the empty array is the caller's, held by
    reference, so it is not empty in every later call. After the caller
    pushes ['admin'] to it the [scope] entry is [admin]. *)
Lemma empty_scopes_can_be_filled :
  ~ (forall cfg c a w0 this w1 x p,
       objects w0 !! cfg = Some c -> scopes c = Some a ->
       arrays w0 !! a = Some [] ->
       new_AuthService cfg w0 = (Returned this, w1) ->
       exists q,
         fst (generateAuthorizationUrl this p (push a x w1))
         = Returned (authorize (endpoints this) ++ "?" ++ q) /\
         entry "scope" (parse_query q) = Some "").
Proof.
  intros H.
  destruct (H 0 (sample_config (Some 1) None) 1
              (sample_world (sample_config (Some 1) None) [] ok_reply)
              (built (sample_config (Some 1) None) 1)
              (sample_world (sample_config (Some 1) None) [] ok_reply)
              "admin" (sample_params (Some "n1") (Some "s1"))
              eq_refl eq_refl eq_refl eq_refl) as (q & Hq & Hscope).
  vm_compute in Hq. injection Hq as <-.
  vm_compute in Hscope. discriminate Hscope.
Qed.

(** The URL of that run. *)
Example filled_scopes_url :
  let c := sample_config (Some 1) None in
  fst (generateAuthorizationUrl (built c 1) (sample_params (Some "n1") (Some "s1"))
         (push 1 "admin" (sample_world c [] ok_reply)))
  = Returned
      ("https://sso.acesso.gov.br/authorize?response_type=code&client_id=id"
       ++ "&scope=admin&redirect_uri=https%3A%2F%2Fapp.test%2Fcb&nonce=n1&state=s1"
       ++ "&code_challenge=Ucth0C-OcYdc4s8JT_o3Lll7KsfpNlpYmwObmzH89UA"
       ++ "&code_challenge_method=S256").
Proof. vm_compute. reflexivity. Qed.

Lemma transport_failures_are_rethrown_witness :
  let this := built (sample_config (Some 1) None) 1 in
  let w := failing_world (Replied {| status := 401; data := JStr "denied" |}) in
  let call := GetUserInfo "t" in
  exists req,
    sent (snd (perform this call w)) = (sent w ++ [req])%list /\
    (forall resp,
       remote w (sent w ++ [req])%list = Replied resp ->
       (200 <= status resp < 300)%Z ->
       fst (perform this call w) = Returned (data resp)) /\
    (forall resp,
       remote w (sent w ++ [req])%list = Replied resp ->
       ~ (200 <= status resp < 300)%Z ->
       let message := "Request failed with status code " ++ pretty (status resp) in
       fst (perform this call w)
       = Threw (GovBRAuthError message "API_ERROR" (Some (status resp))
                  (Some (AxiosError message (Some resp))))) /\
    (forall message response,
       remote w (sent w ++ [req])%list = Failed (AxiosError message response) ->
       fst (perform this call w)
       = Threw (GovBRAuthError message "API_ERROR"
                  (match response with Some r => Some (status r) | None => None end)
                  (Some (AxiosError message response)))) /\
    (forall e,
       remote w (sent w ++ [req])%list = Failed e ->
       isAxiosError e = false ->
       fst (perform this call w) = Threw e).
Proof.
  exact (transport_failures_are_rethrown 0 before before
           (built (sample_config (Some 1) None) 1) eq_refl (GetUserInfo "t")
           (failing_world (Replied {| status := 401; data := JStr "denied" |}))).
Defined.

(** The simulated responses of the specification. *)
Example rejected_401 :
  fst (getUserInfo (built (sample_config (Some 1) None) 1) "t"
         (failing_world (Replied {| status := 401; data := JStr "denied" |})))
  = Threw (GovBRAuthError "Request failed with status code 401" "API_ERROR" (Some 401%Z)
             (Some (AxiosError "Request failed with status code 401"
                      (Some {| status := 401; data := JStr "denied" |})))).
Proof. vm_compute. reflexivity. Qed.

Example rejected_500 :
  fst (getTokens (built (sample_config (Some 1) None) 1) "code" "verifier"
         (failing_world (Replied {| status := 500; data := JNull |})))
  = Threw (GovBRAuthError "Request failed with status code 500" "API_ERROR" (Some 500%Z)
             (Some (AxiosError "Request failed with status code 500"
                      (Some {| status := 500; data := JNull |})))).
Proof. vm_compute. reflexivity. Qed.

Example network_failure :
  fst (getConfiabilidadeSelos (built (sample_config (Some 1) None) 1) "t" "12345678909"
         (failing_world (Failed (AxiosError "timeout of 10000ms exceeded" None))))
  = Threw (GovBRAuthError "timeout of 10000ms exceeded" "API_ERROR" None
             (Some (AxiosError "timeout of 10000ms exceeded" None))).
Proof. vm_compute. reflexivity. Qed.

Example other_error_passes :
  fst (getConfiabilidadeNiveis (built (sample_config (Some 1) None) 1) "t" "12345678909"
         (failing_world (Failed (TypeError "x is not a function"))))
  = Threw (TypeError "x is not a function").
Proof. vm_compute. reflexivity. Qed.

Lemma staging_routes_every_operation_witness :
  let c := sample_config (Some 1) (Some staging) in
  let w0 := sample_world c ["openid"] ok_reply in
  let this := built c 1 in
  endpoints this = ENDPOINTS staging /\
  (forall p w u,
     fst (generateAuthorizationUrl this p w) = Returned u ->
     exists q, u = "https://sso.staging.acesso.gov.br/authorize?" ++ q) /\
  (forall call w,
     exists req,
       sent (snd (perform this call w)) = (sent w ++ [req])%list /\
       url req =
       match call with
       | GetTokens _ _ => "https://sso.staging.acesso.gov.br/token"
       | GetUserInfo _ => "https://sso.staging.acesso.gov.br/userinfo"
       | GetConfiabilidadeNiveis _ cpf =>
           "https://api.staging.acesso.gov.br/confiabilidades/v3/contas/" ++ cpf ++ "/niveis"
       | GetConfiabilidadeSelos _ cpf =>
           "https://api.staging.acesso.gov.br/confiabilidades/v3/contas/" ++ cpf
           ++ "/confiabilidades"
       end) /\
  (forall uri,
     generateLogoutUrl this uri
     = "https://sso.staging.acesso.gov.br/logout?post_logout_redirect_uri=" ++ form_encode uri).
Proof.
  exact (staging_routes_every_operation 0 (sample_config (Some 1) (Some staging))
           (sample_world (sample_config (Some 1) (Some staging)) ["openid"] ok_reply)
           (sample_world (sample_config (Some 1) (Some staging)) ["openid"] ok_reply)
           (built (sample_config (Some 1) (Some staging)) 1)
           eq_refl eq_refl eq_refl).
Defined.

(** The five URLs of the two tables differ. *)
Lemma staging_differs_from_production :
  authorize (ENDPOINTS staging) <> authorize (ENDPOINTS production) /\
  token (ENDPOINTS staging) <> token (ENDPOINTS production) /\
  userinfo (ENDPOINTS staging) <> userinfo (ENDPOINTS production) /\
  logout (ENDPOINTS staging) <> logout (ENDPOINTS production) /\
  confiabilidades (ENDPOINTS staging) <> confiabilidades (ENDPOINTS production).
Proof. repeat split; discriminate. Qed.

(** * Further properties of the code *)

Lemma all_chars_weaken (p q : ascii -> bool) s :
  (forall c, p c = true -> q c = true) -> all_chars p s = true -> all_chars q s = true.
Proof.
  intros Hpq. induction s as [|c r IH]; [reflexivity|].
  cbn [all_chars]. intros H. apply andb_true_iff in H as [Hc Hr].
  now rewrite (Hpq c Hc), IH.
Qed.

Lemma all_chars_occurs p c s : all_chars p s = true -> p c = false -> occurs c s = false.
Proof.
  intros Hs Hc. induction s as [|x r IH]; [reflexivity|].
  cbn [all_chars occurs] in *. apply andb_true_iff in Hs as [Hx Hr].
  rewrite (IH Hr), orb_false_r. apply Ascii.eqb_neq. intros ->. congruence.
Qed.

Lemma bytes_drawn_length w k n : String.length (bytes_drawn w k n) = n.
Proof.
  unfold bytes_drawn. generalize k. induction n as [|n IH]; intros k'; [reflexivity|].
  cbn [seq map string_of_list_ascii String.length]. now rewrite IH.
Qed.

(** *** Hex *)

Lemma to_hex_length s : String.length (to_hex s) = 2 * String.length s.
Proof.
  induction s as [|c r IH]; [reflexivity|].
  cbn [to_hex String.length]. rewrite IH. lia.
Qed.

Lemma to_hex_digits s : all_chars is_hex_digit (to_hex s) = true.
Proof.
  induction s as [|c r IH]; [reflexivity|].
  each_byte c; exact IH.
Qed.

Lemma from_hex_cons c r :
  from_hex (to_hex (String c r))
  = match from_hex (to_hex r) with Some t => Some (String c t) | None => None end.
Proof. each_byte c; reflexivity. Qed.

Lemma from_hex_to_hex s : from_hex (to_hex s) = Some s.
Proof.
  induction s as [|c r IH]; [reflexivity|].
  now rewrite from_hex_cons, IH.
Qed.

Lemma to_hex_inj a b : to_hex a = to_hex b -> a = b.
Proof.
  intros H. apply (f_equal from_hex) in H. rewrite !from_hex_to_hex in H. congruence.
Qed.

Lemma generateNonce_run w :
  generateNonce w = (Returned (to_hex (bytes_drawn w (cursor w) 16)), set_cursor (cursor w + 16) w).
Proof. reflexivity. Qed.

Lemma generateState_run w :
  generateState w = (Returned (to_hex (bytes_drawn w (cursor w) 16)), set_cursor (cursor w + 16) w).
Proof. reflexivity. Qed.

Lemma generateCodeVerifier_run w :
  generateCodeVerifier w
  = (Returned (to_base64url (bytes_drawn w (cursor w) 32)), set_cursor (cursor w + 32) w).
Proof. reflexivity. Qed.

(** X1. [generateNonce] and [generateState] are the same computation: they
    consume exactly 16 bytes of the random source, change nothing else, and
    return 32 lower-case hex digits from which the 16 bytes are read back. *)
Theorem nonce_is_32_hex_digits w :
  exists v,
    generateNonce w = (Returned v, set_cursor (cursor w + 16) w) /\
    generateState w = (Returned v, set_cursor (cursor w + 16) w) /\
    String.length v = 32 /\
    all_chars is_hex_digit v = true /\
    from_hex v = Some (bytes_drawn w (cursor w) 16).
Proof.
  exists (to_hex (bytes_drawn w (cursor w) 16)).
  split; [apply generateNonce_run|]. split; [apply generateState_run|].
  split; [|split].
  - now rewrite to_hex_length, bytes_drawn_length.
  - apply to_hex_digits.
  - apply from_hex_to_hex.
Qed.

Lemma bytes_drawn_eq w1 w2 k1 k2 n :
  bytes_drawn w1 k1 n = bytes_drawn w2 k2 n <->
  forall i, i < n -> entropy w1 (k1 + i) = entropy w2 (k2 + i).
Proof.
  unfold bytes_drawn. revert k1 k2. induction n as [|n IH]; intros k1 k2.
  - split; [intros _ i Hi; lia|reflexivity].
  - cbn [seq map string_of_list_ascii]. split.
    + intros [= H0 Hr] i Hi. destruct i as [|i].
      * now rewrite !Nat.add_0_r.
      * rewrite !Nat.add_succ_r, <- !Nat.add_succ_l.
        apply (proj1 (IH (S k1) (S k2)) Hr). lia.
    + intros H. f_equal.
      * specialize (H 0 ltac:(lia)). now rewrite !Nat.add_0_r in H.
      * apply IH. intros i Hi. specialize (H (S i) ltac:(lia)).
        now rewrite !Nat.add_succ_r in H.
Qed.

(** X2. A nonce and a state drawn one after the other consume 32 bytes in
    all, and are equal exactly when the two blocks of 16 bytes are. *)
Theorem nonce_and_state_collide_only_on_equal_bytes w :
  exists n s w',
    (let! n := generateNonce in let! s := generateState in ret (n, s)) w
    = (Returned (n, s), w') /\
    cursor w' = cursor w + 32 /\
    (n = s <-> forall i, i < 16 -> entropy w (cursor w + i) = entropy w (cursor w + 16 + i)).
Proof.
  unfold bind, ret. rewrite generateNonce_run, generateState_run.
  cbn [cursor set_cursor entropy].
  do 3 eexists. split; [reflexivity|]. split; [cbn [cursor set_cursor]; lia|].
  change (bytes_drawn (set_cursor (cursor w + 16) w) (cursor w + 16) 16)
    with (bytes_drawn w (cursor w + 16) 16).
  rewrite <- bytes_drawn_eq. split; [apply to_hex_inj|now intros ->].
Qed.

(** *** base64url *)

Lemma sextets_url_ok : forallb sextet_url_ok sextets = true.
Proof. vm_compute. reflexivity. Qed.

Lemma url_safe_sextet i r :
  (i < 64)%N ->
  url_safe (String (b64 i) r) = String (url_char (b64 i)) (url_safe r) /\
  is_base64url_char (url_char (b64 i)) = true.
Proof.
  intros Hi. destruct (sextet_spec i Hi) as (_ & _ & _ & Hne). split.
  - now apply url_safe_cons.
  - exact (proj1 (forallb_forall _ _) sextets_url_ok i (sextet_In i Hi)).
Qed.

Ltac url_sextets :=
  repeat match goal with
  | |- context [url_safe (String (b64 ?i) ?r)] =>
      let H := fresh "H" in
      let E := fresh "E" in
      let A := fresh "A" in
      assert (H : (i < 64)%N) by euclid;
      destruct (url_safe_sextet i r H) as [E A];
      rewrite E; clear E H
  end.

Lemma base64url_shape s :
  String.length (url_safe (to_base64 s)) = (4 * String.length s + 2) / 3 /\
  all_chars is_base64url_char (url_safe (to_base64 s)) = true.
Proof.
  induction s as [|a|a b|a b c r [IHl IHa]] using string_ind3.
  - split; reflexivity.
  - pose proof (byte_val_bound a). cbn [to_base64]. url_sextets.
    change (url_safe "==") with "". cbn [all_chars String.length]. split; [reflexivity|].
    now rewrite A, A0.
  - pose proof (byte_val_bound a). pose proof (byte_val_bound b). cbn [to_base64].
    url_sextets. change (url_safe "=") with "". cbn [all_chars String.length].
    split; [reflexivity|]. now rewrite A, A0, A1.
  - pose proof (byte_val_bound a). pose proof (byte_val_bound b).
    pose proof (byte_val_bound c). cbn [to_base64]. url_sextets.
    cbn [all_chars String.length]. rewrite IHl, IHa, A, A0, A1, A2. split; [|reflexivity].
    generalize (String.length r). intros n.
    replace (4 * S (S (S n)) + 2) with (4 * n + 2 + 4 * 3) by lia.
    rewrite Nat.div_add by lia. lia.
Qed.

Lemma base64URLEncode_eq s : base64URLEncode s = url_safe (to_base64 s).
Proof. reflexivity. Qed.

Lemma to_base64url_eq s : to_base64url s = url_safe (to_base64 s).
Proof. reflexivity. Qed.

(** X5. [base64URLEncode] maps [n] bytes to the [(4n + 2) / 3] characters
    of unpadded base64, all of them letters, digits, [-] or [_]; and it is
    injective. *)
Theorem base64URLEncode_shape str :
  String.length (base64URLEncode str) = (4 * String.length str + 2) / 3 /\
  all_chars is_base64url_char (base64URLEncode str) = true /\
  forall other, base64URLEncode other = base64URLEncode str -> other = str.
Proof.
  rewrite base64URLEncode_eq.
  destruct (base64url_shape str) as [Hl Ha]. split; [exact Hl|]. split; [exact Ha|].
  intros other H. rewrite <- !base64URLEncode_eq in H. apply (f_equal (fun t => from_base64 (reverse_url_safe t))) in H.
  rewrite !base64URLEncode_decodes in H. congruence.
Qed.

(** X3. [generateCodeVerifier] consumes exactly 32 bytes, changes nothing
    else, and returns 43 characters of the base64url alphabet that decode
    back to those 32 bytes. *)
Theorem code_verifier_shape w :
  exists v,
    generateCodeVerifier w = (Returned v, set_cursor (cursor w + 32) w) /\
    String.length v = 43 /\
    all_chars is_base64url_char v = true /\
    from_base64 (reverse_url_safe v) = Some (bytes_drawn w (cursor w) 32).
Proof.
  exists (to_base64url (bytes_drawn w (cursor w) 32)).
  split; [apply generateCodeVerifier_run|].
  destruct (base64url_shape (bytes_drawn w (cursor w) 32)) as [Hl Ha].
  rewrite bytes_drawn_length in Hl. change ((4 * 32 + 2) / 3) with 43 in Hl.
  rewrite to_base64url_eq.
  split; [exact Hl|]. split; [exact Ha|].
  rewrite <- base64URLEncode_eq. apply base64URLEncode_decodes.
Qed.

(** *** The digest is 32 bytes long *)

Lemma string_of_bytes_length l : String.length (string_of_bytes l) = length l.
Proof. induction l as [|b l IH]; [reflexivity|]. cbn [string_of_bytes String.length length]. now rewrite IH. Qed.

Lemma be_bytes_length k n : length (Sha256.be_bytes k n) = k.
Proof. induction k as [|k IH]; [reflexivity|]. cbn [Sha256.be_bytes length]. now rewrite IH. Qed.

Lemma flat_map_be_bytes_length l :
  length (flat_map (Sha256.be_bytes 4) l) = 4 * length l.
Proof.
  induction l as [|x l IH]; [reflexivity|].
  cbn [flat_map]. rewrite List.length_app, be_bytes_length, IH. cbn [length]. lia.
Qed.

Lemma round_length st kw : length st = 8 -> length (Sha256.round st kw) = 8.
Proof.
  intros H. destruct st as [|a [|b [|c [|d [|e [|f [|g [|h [|i st]]]]]]]]]; try discriminate H.
  reflexivity.
Qed.

Lemma rounds_length kws st : length st = 8 -> length (fold_left Sha256.round kws st) = 8.
Proof.
  revert st. induction kws as [|kw kws IH]; intros st H; [exact H|].
  cbn [fold_left]. apply IH. now apply round_length.
Qed.

Lemma compress_length h block : length h = 8 -> length (Sha256.compress h block) = 8.
Proof.
  intros H. unfold Sha256.compress. cbv zeta.
  rewrite length_map, length_combine, rounds_length by exact H. rewrite H. reflexivity.
Qed.

Lemma blocks_length n bs h : length h = 8 -> length (Sha256.blocks n bs h) = 8.
Proof.
  revert bs h. induction n as [|n IH]; intros bs h H; [exact H|].
  cbn [Sha256.blocks]. apply IH. now apply compress_length.
Qed.

Lemma digest_length msg : String.length (Sha256.digest msg) = 32.
Proof.
  unfold Sha256.digest. cbv zeta.
  rewrite string_of_bytes_length, flat_map_be_bytes_length, blocks_length; reflexivity.
Qed.

Lemma code_challenge_length v : String.length (generateCodeChallenge v) = 43.
Proof.
  change (generateCodeChallenge v) with (url_safe (to_base64 (Sha256.digest v))).
  rewrite (proj1 (base64url_shape (Sha256.digest v))), digest_length. reflexivity.
Qed.

Lemma code_challenge_chars v :
  all_chars is_base64url_char (generateCodeChallenge v) = true.
Proof. exact (proj2 (base64url_shape (Sha256.digest v))). Qed.

(** X4. Whatever the verifier, the code challenge is 43 characters long
    and made of letters, digits, [-] and [_]. *)
Theorem code_challenge_shape verifier :
  String.length (generateCodeChallenge verifier) = 43 /\
  all_chars is_base64url_char (generateCodeChallenge verifier) = true.
Proof.
  split.
  - apply code_challenge_length.
  - apply code_challenge_chars.
Qed.

(** *** The serialiser of [URLSearchParams] *)

Lemma form_encode_query_chars s : all_chars is_query_char (form_encode s) = true.
Proof.
  induction s as [|c r IH]; [reflexivity|].
  each_byte c; exact IH.
Qed.

Lemma form_encode_unreserved s : all_chars unreserved s = true -> form_encode s = s.
Proof.
  induction s as [|c r IH]; [reflexivity|].
  cbn [all_chars form_encode]. intros H. apply andb_true_iff in H as [-> Hr].
  now rewrite IH.
Qed.

Lemma hex_digit_unreserved c : is_hex_digit c = true -> unreserved c = true.
Proof. each_byte c; intros H; try reflexivity; discriminate H. Qed.

Lemma base64url_char_unreserved c : is_base64url_char c = true -> unreserved c = true.
Proof. each_byte c; intros H; try reflexivity; discriminate H. Qed.

Lemma hex_drawn_verbatim w k : form_encode (hex_drawn w k) = hex_drawn w k.
Proof.
  apply form_encode_unreserved.
  apply (all_chars_weaken is_hex_digit); [apply hex_digit_unreserved|apply to_hex_digits].
Qed.

Lemma code_challenge_verbatim v : form_encode (generateCodeChallenge v) = generateCodeChallenge v.
Proof.
  apply form_encode_unreserved.
  apply (all_chars_weaken is_base64url_char); [apply base64url_char_unreserved|].
  apply code_challenge_chars.
Qed.

Lemma string_app_assoc (a b c : string) : (a ++ b) ++ c = a ++ b ++ c.
Proof.
  induction a as [|x a IH]; [reflexivity|].
  change (String x ((a ++ b) ++ c) = String x (a ++ b ++ c)). now rewrite IH.
Qed.

(** The text of the eight entries, for any values. *)
Lemma authorization_query_text a rt cid sc ru n s ch m :
  a ++ "?" ++ toString [ ("response_type", rt); ("client_id", cid); ("scope", sc);
                         ("redirect_uri", ru); ("nonce", n); ("state", s);
                         ("code_challenge", ch); ("code_challenge_method", m) ]
  = a ++ "?response_type=" ++ form_encode rt
      ++ "&client_id=" ++ form_encode cid
      ++ "&scope=" ++ form_encode sc
      ++ "&redirect_uri=" ++ form_encode ru
      ++ "&nonce=" ++ form_encode n
      ++ "&state=" ++ form_encode s
      ++ "&code_challenge=" ++ form_encode ch
      ++ "&code_challenge_method=" ++ form_encode m.
Proof.
  unfold toString. cbn [map join fst snd].
  change (form_encode "response_type") with "response_type".
  change (form_encode "client_id") with "client_id".
  change (form_encode "scope") with "scope".
  change (form_encode "redirect_uri") with "redirect_uri".
  change (form_encode "nonce") with "nonce".
  change (form_encode "state") with "state".
  change (form_encode "code_challenge") with "code_challenge".
  change (form_encode "code_challenge_method") with "code_challenge_method".
  rewrite !string_app_assoc. reflexivity.
Qed.

Lemma form_encode_app a b : form_encode (a ++ b) = form_encode a ++ form_encode b.
Proof.
  induction a as [|c a IH]; [reflexivity|].
  change (String c a ++ b) with (String c (a ++ b)). cbn [form_encode]. rewrite IH.
  destruct (unreserved c); [reflexivity|].
  destruct (Ascii.eqb c " "); [reflexivity|].
  now rewrite string_app_assoc.
Qed.

(** [join(' ')] is serialised with [+] between the encoded items. *)
Lemma form_encode_join l : form_encode (join " " l) = join "+" (map form_encode l).
Proof.
  induction l as [|x [|y l] IH]; [reflexivity|reflexivity|].
  change (join " " (x :: y :: l)%list) with (x ++ " " ++ join " " (y :: l)%list).
  change (join "+" (map form_encode (x :: y :: l)%list))
    with (form_encode x ++ "+" ++ join "+" (map form_encode (y :: l)%list)).
  rewrite !form_encode_app, IH. reflexivity.
Qed.

Lemma or_else_supplied o d s : supplied o s -> or_else o d = s.
Proof. intros H. apply truthy_supplied in H. unfold or_else. now rewrite H. Qed.

Lemma response_type_code_text (a x : string) :
  a ++ "?response_type=" ++ "code" ++ x = a ++ "?response_type=code" ++ x.
Proof. reflexivity. Qed.

(** X7. The text of the URL of a call without parameters: the values the
    service generates (nonce, state, code challenge) appear as they are,
    never percent-escaped; the scopes are encoded one by one and separated
    by [+]. *)
Theorem authorization_url_text_without_params this w scope :
  arrays w !! Required.scopes (config this) = Some scope ->
  fst (generateAuthorizationUrl this no_params w)
  = Returned
      (authorize (endpoints this)
       ++ "?response_type=code"
       ++ "&client_id=" ++ form_encode (Required.clientId (config this))
       ++ "&scope=" ++ join "+" (map form_encode scope)
       ++ "&redirect_uri=" ++ form_encode (Required.redirectUri (config this))
       ++ "&nonce=" ++ hex_drawn w (cursor w + 32)
       ++ "&state=" ++ hex_drawn w (cursor w + 48)
       ++ "&code_challenge=" ++ generateCodeChallenge (verifier_drawn w)
       ++ "&code_challenge_method=S256").
Proof.
  intros Hw. rewrite generateAuthorizationUrl_run. cbn zeta. rewrite Hw. cbn [fst].
  unfold query_of. cbn [no_params responseType nonce state codeChallenge codeChallengeMethod].
  change (falsy None) with true. cbv iota.
  change (or_else None "code") with "code".
  change (or_else None "S256") with "S256".
  change (or_else None (hex_drawn w (cursor w + 32))) with (hex_drawn w (cursor w + 32)).
  change (or_else None (hex_drawn w (cursor w + 32 + 16)))
    with (hex_drawn w (cursor w + 32 + 16)).
  change (or_else None (generateCodeChallenge (verifier_drawn w)))
    with (generateCodeChallenge (verifier_drawn w)).
  rewrite authorization_query_text.
  rewrite !hex_drawn_verbatim, code_challenge_verbatim, form_encode_join.
  change (form_encode "code") with "code". change (form_encode "S256") with "S256".
  change ("&code_challenge_method=" ++ "S256") with "&code_challenge_method=S256".
  rewrite response_type_code_text.
  replace (cursor w + 32 + 16) with (cursor w + 48) by lia.
  reflexivity.
Qed.

(** X6. When the caller supplies a non-empty [codeChallenge], the URL
    carries it and does not depend on the 32 bytes of the verifier the
    function still draws: they are consumed and lost. No request is sent. *)
Theorem supplied_challenge_still_draws_verifier this p w1 w2 ch :
  supplied (codeChallenge p) ch ->
  arrays w1 !! Required.scopes (config this) = arrays w2 !! Required.scopes (config this) ->
  cursor w1 = cursor w2 ->
  (forall i, cursor w1 + 32 <= i -> entropy w1 i = entropy w2 i) ->
  fst (generateAuthorizationUrl this p w1) = fst (generateAuthorizationUrl this p w2) /\
  cursor w1 + 32 <= cursor (snd (generateAuthorizationUrl this p w1)) /\
  sent (snd (generateAuthorizationUrl this p w1)) = sent w1 /\
  (forall scope, arrays w1 !! Required.scopes (config this) = Some scope ->
   exists q, fst (generateAuthorizationUrl this p w1)
             = Returned (authorize (endpoints this) ++ "?" ++ q) /\
             entry "code_challenge" (parse_query q) = Some ch).
Proof.
  intros Hch Ha Hk He.
  destruct (generateAuthorizationUrl_frame this p w1) as (k & Hframe & Hk32).
  split; [|split; [|split]].
  - rewrite !generateAuthorizationUrl_run. cbn zeta. rewrite <- Ha, <- Hk.
    destruct (arrays w1 !! Required.scopes (config this)) as [scope|]; [|reflexivity].
    cbn [fst]. unfold query_of. rewrite !(or_else_supplied _ _ ch Hch).
    rewrite <- (hex_drawn_ext w1 w2 (cursor w1 + 32)) by exact He.
    rewrite <- (hex_drawn_ext w1 w2
                  (if falsy (nonce p) then cursor w1 + 32 + 16 else cursor w1 + 32)).
    + reflexivity.
    + intros i Hi. apply He. destruct (falsy (nonce p)); lia.
  - rewrite Hframe. exact Hk32.
  - rewrite Hframe. reflexivity.
  - intros scope Hs. rewrite generateAuthorizationUrl_run. cbn zeta. rewrite Hs. cbn [fst].
    eexists. split; [reflexivity|]. rewrite parse_query_toString.
    unfold query_of, entry. cbn [find fst snd].
    rewrite (or_else_supplied _ _ ch Hch). reflexivity.
Qed.

Lemma toString_single k v : toString [(k, v)] = form_encode k ++ "=" ++ form_encode v.
Proof. reflexivity. Qed.

(** X8. Whatever the URI, the logout URL has a query of exactly one entry,
    [post_logout_redirect_uri], whose value is the URI: the text of the
    query holds no [&], [#], [?] or space, so that the URI cannot add a
    parameter or a fragment. *)
Theorem logout_url_has_one_parameter this uri :
  exists q,
    generateLogoutUrl this uri = logout (endpoints this) ++ "?" ++ q /\
    parse_query q = [("post_logout_redirect_uri", uri)] /\
    occurs "&" q = false /\ occurs "#" q = false /\
    occurs "?" q = false /\ occurs " " q = false.
Proof.
  exists (toString [("post_logout_redirect_uri", uri)]).
  split; [reflexivity|]. split; [apply parse_query_toString|].
  rewrite toString_single.
  change (form_encode "post_logout_redirect_uri") with "post_logout_redirect_uri".
  pose proof (form_encode_query_chars uri) as Hq.
  repeat split; rewrite !occurs_app;
    rewrite (all_chars_occurs is_query_char _ (form_encode uri) Hq) by reflexivity;
    reflexivity.
Qed.

(** *** The interceptor *)

Lemma rethrow_throws error :
  exists e, rethrow error = Threw e /\ isAxiosError e = false.
Proof.
  unfold rethrow. destruct error; cbn [isAxiosError]; eexists; split; reflexivity.
Qed.

(** X11. The rejection handler always throws, never fulfils. What it
    throws keeps the message of the original error and is not an axios
    error, so that handling it again changes nothing; an axios error is
    wrapped with the code [API_ERROR], its status and itself. *)
Theorem rethrow_keeps_message_and_is_idempotent error :
  exists e,
    rethrow error = Threw e /\
    message_of e = message_of error /\
    isAxiosError e = false /\
    rethrow e = Threw e /\
    (isAxiosError error = true ->
     e = GovBRAuthError (message_of error) "API_ERROR" (response_status error) (Some error)).
Proof.
  unfold rethrow. destruct error as [m|m|m r|m code st orig]; cbn [isAxiosError].
  - exists (Error m). repeat split. discriminate.
  - exists (TypeError m). repeat split. discriminate.
  - eexists. repeat split.
  - exists (GovBRAuthError m code st orig). repeat split. discriminate.
Qed.

(** *** The network operations of a constructed service *)

Section ConstructedRequests.

Variables (cfg : loc) (w0 w1 : World) (this : AuthService).
Hypothesis Hnew : new_AuthService cfg w0 = (Returned this, w1).

Lemma constructed_defaults :
  default_timeout (client this) = 10000%Z /\
  default_headers (client this) = [("Content-Type", "application/json")].
Proof.
  destruct (new_AuthService_built _ _ _ _ Hnew) as (c' & _ & _ & _ & _ & _ & _ & H).
  destruct (scopes c'); destruct H as [-> _]; split; reflexivity.
Qed.

Lemma constructed_perform call w :
  perform this call w =
  (match settle (remote w (sent w ++ [request_of this call])%list) with
   | Returned r => Returned (data r)
   | Threw e => match rethrow e with Returned r => Returned (data r) | Threw e' => Threw e' end
   end, set_sent (sent w ++ [request_of this call])%list w).
Proof.
  rewrite perform_run. cbn zeta. rewrite (constructed_client _ _ _ _ Hnew).
  unfold intercept. cbn [fold_left onFulfilled onRejected].
  destruct (settle _); reflexivity.
Qed.

(** X9. For a constructed service, [getUserInfo],
    [getConfiabilidadeNiveis] and [getConfiabilidadeSelos] each add exactly
    one request to the log and change nothing else: a GET without body,
    with the [Bearer] token, the 10 s timeout, the URL of the endpoint (the
    CPF placed as it is in the path) and, for the two trust operations,
    the query [response-type=ids]. *)
Theorem bearer_requests accessToken cpf w :
  (exists req,
     snd (getUserInfo this accessToken w) = set_sent (sent w ++ [req])%list w /\
     method req = GET /\ url req = userinfo (endpoints this) /\
     body req = None /\ params req = [] /\
     entry "Authorization" (headers req) = Some ("Bearer " ++ accessToken) /\
     timeout req = 10000%Z) /\
  (exists req,
     snd (getConfiabilidadeNiveis this accessToken cpf w) = set_sent (sent w ++ [req])%list w /\
     method req = GET /\
     url req = confiabilidades (endpoints this) ++ "/contas/" ++ cpf ++ "/niveis" /\
     body req = None /\ params req = [("response-type", "ids")] /\
     entry "Authorization" (headers req) = Some ("Bearer " ++ accessToken) /\
     timeout req = 10000%Z) /\
  (exists req,
     snd (getConfiabilidadeSelos this accessToken cpf w) = set_sent (sent w ++ [req])%list w /\
     method req = GET /\
     url req = confiabilidades (endpoints this) ++ "/contas/" ++ cpf ++ "/confiabilidades" /\
     body req = None /\ params req = [("response-type", "ids")] /\
     entry "Authorization" (headers req) = Some ("Bearer " ++ accessToken) /\
     timeout req = 10000%Z).
Proof.
  destruct constructed_defaults as [Ht _].
  split; [|split].
  - exists (request_of this (GetUserInfo accessToken)).
    change (getUserInfo this accessToken) with (perform this (GetUserInfo accessToken)).
    rewrite perform_run. cbn zeta. cbn [snd]. repeat split. exact Ht.
  - exists (request_of this (GetConfiabilidadeNiveis accessToken cpf)).
    change (getConfiabilidadeNiveis this accessToken cpf)
      with (perform this (GetConfiabilidadeNiveis accessToken cpf)).
    rewrite perform_run. cbn zeta. cbn [snd]. repeat split. exact Ht.
  - exists (request_of this (GetConfiabilidadeSelos accessToken cpf)).
    change (getConfiabilidadeSelos this accessToken cpf)
      with (perform this (GetConfiabilidadeSelos accessToken cpf)).
    rewrite perform_run. cbn zeta. cbn [snd]. repeat split. exact Ht.
Qed.

(** X10. A network operation of a constructed service returns data only
    when the response to its request had a 2xx status, and then the data
    of that response; what it throws otherwise is never an axios error. *)
Theorem data_only_from_2xx call w :
  exists req,
    sent (snd (perform this call w)) = (sent w ++ [req])%list /\
    match fst (perform this call w) with
    | Returned d =>
        exists resp,
          remote w (sent w ++ [req])%list = Replied resp /\
          (200 <= status resp < 300)%Z /\ d = data resp
    | Threw e => isAxiosError e = false
    end.
Proof.
  exists (request_of this call). rewrite constructed_perform. cbn [fst snd sent set_sent].
  split; [reflexivity|].
  destruct (remote w (sent w ++ [request_of this call])%list) as [resp|e]; cbn [settle].
  - unfold validateStatus.
    destruct (Z.leb_spec 200 (status resp)); destruct (Z.ltb_spec (status resp) 300);
      cbn [andb]; try reflexivity.
    exists resp. repeat split; assumption.
  - destruct (rethrow_throws e) as (e' & -> & Hna). exact Hna.
Qed.

End ConstructedRequests.

(** *** What construction leaves alone *)

(** X12. Construction sends nothing and draws no random byte; it leaves
    the caller's objects and every existing array as they are. When it
    throws, or when the configuration supplies [scopes], the world is
    unchanged. *)
Theorem construction_frame cfg w :
  same_ambient w (snd (new_AuthService cfg w)) /\
  objects (snd (new_AuthService cfg w)) = objects w /\
  (forall a l, arrays w !! a = Some l -> arrays (snd (new_AuthService cfg w)) !! a = Some l) /\
  (forall e, fst (new_AuthService cfg w) = Threw e -> snd (new_AuthService cfg w) = w) /\
  (forall c a, objects w !! cfg = Some c -> scopes c = Some a ->
               snd (new_AuthService cfg w) = w).
Proof.
  destruct (objects w !! cfg) as [c|] eqn:Hc.
  - rewrite (new_AuthService_run cfg c w Hc).
    destruct (falsy (clientId c) || falsy (clientSecret c) || falsy (redirectUri c)).
    + cbn [fst snd]. repeat split; auto.
    + destruct (scopes c) as [a|] eqn:Hs; cbn [fst snd].
      * repeat split; auto.
      * repeat split.
        -- intros a l Ha. cbn [arrays set_arrays].
           rewrite lookup_insert_ne; [exact Ha|].
           intros <-. pose proof (is_fresh (dom (arrays w))) as Hf.
           apply Hf. apply elem_of_dom. eauto.
        -- discriminate.
        -- intros c' a [= <-]. congruence.
  - unfold new_AuthService, bind, read_object. rewrite Hc. cbn [fst snd].
    repeat split; auto; discriminate.
Qed.

(** X13. Two services constructed without [scopes] hold two different
    arrays, each with the default scopes: the default list is copied for
    every service. *)
Theorem default_scopes_are_per_service cfg1 cfg2 c1 c2 w0 this1 w1 this2 w2 :
  objects w0 !! cfg1 = Some c1 -> scopes c1 = None ->
  objects w1 !! cfg2 = Some c2 -> scopes c2 = None ->
  new_AuthService cfg1 w0 = (Returned this1, w1) ->
  new_AuthService cfg2 w1 = (Returned this2, w2) ->
  Required.scopes (config this1) <> Required.scopes (config this2) /\
  arrays w2 !! Required.scopes (config this1) = Some DEFAULT_SCOPES /\
  arrays w2 !! Required.scopes (config this2) = Some DEFAULT_SCOPES.
Proof.
  intros Hc1 Hs1 Hc2 Hs2 Hn1 Hn2.
  pose proof (constructed_shape _ _ _ _ _ Hc1 Hn1) as H1. rewrite Hs1 in H1.
  pose proof (constructed_shape _ _ _ _ _ Hc2 Hn2) as H2. rewrite Hs2 in H2.
  destruct H1 as [-> Hw1]. destruct H2 as [-> Hw2].
  cbn [built config Required.scopes].
  assert (Hne : fresh (dom (arrays w0)) <> fresh (dom (arrays w1))).
  { intros E. pose proof (is_fresh (dom (arrays w1))) as Hf. apply Hf.
    rewrite <- E, Hw1. apply elem_of_dom. rewrite lookup_insert_eq. eauto. }
  split; [exact Hne|]. rewrite Hw2. split.
  - rewrite lookup_insert_ne by congruence. rewrite Hw1. apply lookup_insert_eq.
  - apply lookup_insert_eq.
Qed.

Lemma code_challenge_nonempty v : generateCodeChallenge v <> "".
Proof.
  intros E. pose proof (code_challenge_length v) as H. rewrite E in H. discriminate H.
Qed.

(** X14. A caller who keeps its own verifier, passes its challenge to
    [generateAuthorizationUrl] and the verifier to [getTokens] gets a
    consistent exchange: the [code_verifier] of the token request hashes to
    the [code_challenge] of the URL, whose method is [S256]. *)
Theorem caller_held_verifier_matches this verifier code w w' scope :
  arrays w !! Required.scopes (config this) = Some scope ->
  exists q req b v,
    fst (generateAuthorizationUrl this (with_challenge verifier) w)
    = Returned (authorize (endpoints this) ++ "?" ++ q) /\
    sent (snd (getTokens this code verifier w')) = (sent w' ++ [req])%list /\
    body req = Some b /\
    entry "code_verifier" b = Some v /\
    entry "code_challenge" (parse_query q) = Some (generateCodeChallenge v) /\
    entry "code_challenge_method" (parse_query q) = Some "S256".
Proof.
  intros Hw. rewrite generateAuthorizationUrl_run. cbn zeta. rewrite Hw. cbn [fst].
  change (getTokens this code verifier) with (perform this (GetTokens code verifier)).
  rewrite perform_run. cbn zeta. cbn [snd sent set_sent].
  eexists. exists (request_of this (GetTokens code verifier)). eexists. exists verifier.
  split; [reflexivity|]. split; [reflexivity|]. split; [reflexivity|].
  split; [reflexivity|]. rewrite parse_query_toString.
  unfold query_of, entry. cbn [find fst snd].
  split; [|reflexivity].
  rewrite (or_else_supplied (codeChallenge (with_challenge verifier)) _
             (generateCodeChallenge verifier)); [reflexivity|].
  split; [reflexivity|apply code_challenge_nonempty].
Qed.

Lemma caller_held_verifier_matches_witness :
  let this := built (sample_config (Some 1) None) 1 in
  exists q req b v,
    fst (generateAuthorizationUrl this (with_challenge "my-verifier") before)
    = Returned (authorize (endpoints this) ++ "?" ++ q) /\
    sent (snd (getTokens this "code" "my-verifier" before)) = (sent before ++ [req])%list /\
    body req = Some b /\
    entry "code_verifier" b = Some v /\
    entry "code_challenge" (parse_query q) = Some (generateCodeChallenge v) /\
    entry "code_challenge_method" (parse_query q) = Some "S256".
Proof.
  exact (caller_held_verifier_matches (built (sample_config (Some 1) None) 1)
           "my-verifier" "code" before before ["openid"; "email"] eq_refl).
Defined.

Lemma supplied_challenge_still_draws_verifier_witness :
  let this := built (sample_config (Some 1) None) 1 in
  let p := with_challenge "my-verifier" in
  fst (generateAuthorizationUrl this p before)
  = fst (generateAuthorizationUrl this p (rerolled before)) /\
  cursor before + 32 <= cursor (snd (generateAuthorizationUrl this p before)) /\
  sent (snd (generateAuthorizationUrl this p before)) = sent before /\
  (forall scope, arrays before !! Required.scopes (config this) = Some scope ->
   exists q, fst (generateAuthorizationUrl this p before)
             = Returned (authorize (endpoints this) ++ "?" ++ q) /\
             entry "code_challenge" (parse_query q)
             = Some (generateCodeChallenge "my-verifier")).
Proof.
  apply (supplied_challenge_still_draws_verifier (built (sample_config (Some 1) None) 1)
           (with_challenge "my-verifier") before (rerolled before)
           (generateCodeChallenge "my-verifier")).
  - split; [reflexivity|]. vm_compute. discriminate.
  - reflexivity.
  - reflexivity.
  - intros i Hi. cbn [rerolled entropy cursor before] in *.
    destruct (Nat.ltb_spec i (0 + 32)); [lia|reflexivity].
Defined.

Lemma authorization_url_text_without_params_witness :
  let this := built (sample_config (Some 1) None) 1 in
  fst (generateAuthorizationUrl this no_params before)
  = Returned
      (authorize (endpoints this)
       ++ "?response_type=code"
       ++ "&client_id=" ++ form_encode (Required.clientId (config this))
       ++ "&scope=" ++ join "+" (map form_encode ["openid"; "email"])
       ++ "&redirect_uri=" ++ form_encode (Required.redirectUri (config this))
       ++ "&nonce=" ++ hex_drawn before (cursor before + 32)
       ++ "&state=" ++ hex_drawn before (cursor before + 48)
       ++ "&code_challenge=" ++ generateCodeChallenge (verifier_drawn before)
       ++ "&code_challenge_method=S256").
Proof.
  exact (authorization_url_text_without_params (built (sample_config (Some 1) None) 1)
           before ["openid"; "email"] eq_refl).
Defined.

Lemma bearer_requests_witness :
  let this := built (sample_config (Some 1) None) 1 in
  let w := before in
  (exists req,
     snd (getUserInfo this "token" w) = set_sent (sent w ++ [req])%list w /\
     method req = GET /\ url req = userinfo (endpoints this) /\
     body req = None /\ params req = [] /\
     entry "Authorization" (headers req) = Some ("Bearer " ++ "token") /\
     timeout req = 10000%Z) /\
  (exists req,
     snd (getConfiabilidadeNiveis this "token" "12345678909" w)
     = set_sent (sent w ++ [req])%list w /\
     method req = GET /\
     url req = confiabilidades (endpoints this) ++ "/contas/" ++ "12345678909" ++ "/niveis" /\
     body req = None /\ params req = [("response-type", "ids")] /\
     entry "Authorization" (headers req) = Some ("Bearer " ++ "token") /\
     timeout req = 10000%Z) /\
  (exists req,
     snd (getConfiabilidadeSelos this "token" "12345678909" w)
     = set_sent (sent w ++ [req])%list w /\
     method req = GET /\
     url req = confiabilidades (endpoints this) ++ "/contas/" ++ "12345678909"
               ++ "/confiabilidades" /\
     body req = None /\ params req = [("response-type", "ids")] /\
     entry "Authorization" (headers req) = Some ("Bearer " ++ "token") /\
     timeout req = 10000%Z).
Proof.
  exact (bearer_requests 0 before before (built (sample_config (Some 1) None) 1) eq_refl
           "token" "12345678909" before).
Defined.

Lemma data_only_from_2xx_witness :
  let this := built (sample_config (Some 1) None) 1 in
  let w := failing_world (Replied {| status := 204; data := JStr "ok" |}) in
  let call := GetUserInfo "token" in
  exists req,
    sent (snd (perform this call w)) = (sent w ++ [req])%list /\
    match fst (perform this call w) with
    | Returned d =>
        exists resp,
          remote w (sent w ++ [req])%list = Replied resp /\
          (200 <= status resp < 300)%Z /\ d = data resp
    | Threw e => isAxiosError e = false
    end.
Proof.
  exact (data_only_from_2xx 0 before before (built (sample_config (Some 1) None) 1) eq_refl
           (GetUserInfo "token")
           (failing_world (Replied {| status := 204; data := JStr "ok" |}))).
Defined.

Lemma default_scopes_are_per_service_witness :
  let c := sample_config None None in
  let w0 := sample_world c [] ok_reply in
  let w1 := with_default_array w0 in
  let w2 := with_default_array w1 in
  let this1 := built c (fresh (dom (arrays w0))) in
  let this2 := built c (fresh (dom (arrays w1))) in
  Required.scopes (config this1) <> Required.scopes (config this2) /\
  arrays w2 !! Required.scopes (config this1) = Some DEFAULT_SCOPES /\
  arrays w2 !! Required.scopes (config this2) = Some DEFAULT_SCOPES.
Proof.
  exact (default_scopes_are_per_service 0 0 (sample_config None None) (sample_config None None)
           (sample_world (sample_config None None) [] ok_reply)
           (built (sample_config None None)
              (fresh (dom (arrays (sample_world (sample_config None None) [] ok_reply)))))
           (with_default_array (sample_world (sample_config None None) [] ok_reply))
           (built (sample_config None None)
              (fresh (dom (arrays (with_default_array
                                     (sample_world (sample_config None None) [] ok_reply))))))
           (with_default_array
              (with_default_array (sample_world (sample_config None None) [] ok_reply)))
           eq_refl eq_refl eq_refl eq_refl eq_refl eq_refl).
Defined.
